(** * Optical fibre loss simulation: a shallow embedding in the real numbers

    The Python scripts [sim*.py] compute with floats and [numpy]; here a
    finite float is a real number of the Standard Library ([R]), and a
    float64 may also be an infinity or nan ([f64] below).  Random draws are
    made explicit: [np.random.normal(loc, scale)] is computed by numpy as
    [loc + scale * z] for a standard normal sample [z], so each draw is an
    input [z : R] (or a sequence of them, [nat -> R]).

    Rounding is not modelled: sums, products and quotients of finite
    operands are the real ones, and [10 ** x] is the real power.  What is
    modelled is where a float computation changes kind:
    - a division by zero raises [ZeroDivisionError] when both operands are
      Python floats, and gives an infinity (nan for [0 / 0]) when one of
      them is a numpy float64;
    - [np.exp] rounds to [0.0] at or below [2^-1075] and to [inf] from
      [2^1024 - 2^970] on (the limits of round-to-nearest float64);
    - infinities and nan then follow IEEE arithmetic;
    - [np.random.normal] raises [ValueError] when its [scale] has the sign
      bit set and is not nan, so a scale of [-0.0] is refused as well. *)

From Stdlib Require Import Reals Lra Lia List String ZArith Bool.
Import ListNotations.
Open Scope R_scope.

(** [np.random.normal(loc, scale)] given the standard normal sample [z]. *)
Definition normal (loc scale z : R) : R := loc + scale * z.

(** [10 ** (-total_loss / 10)]: dB loss to a linear power ratio. *)
Definition db_to_ratio (total_loss : R) : R := Rpower 10 (- total_loss / 10).

(** Outcome of a call: its result (for a GUI callback, the data it plots and
    stores), a message put on [result_label] followed by [return], or a Python
    exception. *)
Inductive outcome (A : Type) : Type :=
| Done (a : A)
| Message (msg : string)
| Raises (exc : string).
Arguments Done {A} a.
Arguments Message {A} msg.
Arguments Raises {A} exc.

(** Sequencing: an exception or an early [return] stops the computation. *)
Definition bind {A B : Type} (m : outcome A) (f : A -> outcome B) : outcome B :=
  match m with
  | Done a => f a
  | Message s => Message s
  | Raises e => Raises e
  end.

Notation "x <- m ;; f" := (bind m (fun x => f))
  (at level 61, m at next level, right associativity).

(** Applying [f] to a result, exceptions and messages passing through. *)
Definition omap {A B : Type} (f : A -> B) (m : outcome A) : outcome B :=
  x <- m ;; Done (f x).

(** A Python loop appending each result: the first exception stops it. *)
Fixpoint collect {A : Type} (l : list (outcome A)) : outcome (list A) :=
  match l with
  | [] => Done []
  | o :: rest => x <- o ;; xs <- collect rest ;; Done (x :: xs)
  end.

(** ** Floats *)

(** A float64: finite, an infinity with its sign ([neg]), or nan. *)
Inductive f64 :=
| Fin (x : R)
| Inf (neg : bool)
| NaN.

(** The sign of a finite float (a zero counts as [+0.0]). *)
Definition Rneg (x : R) : bool := if Rlt_dec x 0 then true else false.

(** Float multiplication: [0 * inf] is nan, the sign of an infinite
    product is the exclusive or of the signs. *)
Definition fmul (a b : f64) : f64 :=
  match a, b with
  | Fin x, Fin y => Fin (x * y)
  | Fin x, Inf s | Inf s, Fin x => if Req_EM_T x 0 then NaN else Inf (xorb s (Rneg x))
  | Inf s, Inf t => Inf (xorb s t)
  | _, _ => NaN
  end.

(** Float addition: [inf + (-inf)] is nan. *)
Definition fadd (a b : f64) : f64 :=
  match a, b with
  | Fin x, Fin y => Fin (x + y)
  | Fin _, Inf s | Inf s, Fin _ => Inf s
  | Inf s, Inf t => if Bool.eqb s t then Inf s else NaN
  | _, _ => NaN
  end.

(** The type of the operands of a division: two Python floats, or at least
    one numpy float64. *)
Inductive ftype := Python_float | Numpy_float64.

(** Python's [x / y] on floats. *)
Definition py_div (x y : R) : outcome R :=
  if Req_EM_T y 0 then Raises "ZeroDivisionError" else Done (x / y).

(** numpy's [x / y] on float64: [x / 0] is an infinity of the sign of [x],
    [0 / 0] is nan. *)
Definition np_div (x y : R) : f64 :=
  if Req_EM_T y 0 then (if Req_EM_T x 0 then NaN else Inf (Rneg x))
  else Fin (x / y).

(** [x / y] for operands of type [k]. *)
Definition div (k : ftype) (x y : R) : outcome f64 :=
  match k with
  | Python_float => q <- py_div x y ;; Done (Fin q)
  | Numpy_float64 => Done (np_div x y)
  end.

(** The float64 limits of [np.exp]: below [exp_tiny] (half the smallest
    subnormal, [2^-1075]) the result rounds to [0.0], from [exp_huge]
    ([2^1024 - 2^970]) on it rounds to [inf]. *)
Definition exp_tiny : R := / IZR (2 ^ 1075).
Definition exp_huge : R := IZR (2 ^ 1024 - 2 ^ 970).

(** [np.exp] of a finite float. *)
Definition np_exp (x : R) : f64 :=
  if Rle_dec (exp x) exp_tiny then Fin 0
  else if Rle_dec exp_huge (exp x) then Inf false
  else Fin (exp x).

(** [np.exp] of a float64: [exp(inf) = inf], [exp(-inf) = 0.0]. *)
Definition np_exp_f (v : f64) : f64 :=
  match v with
  | Fin x => np_exp x
  | Inf false => Inf false
  | Inf true => Fin 0
  | NaN => NaN
  end.

(** [10 ** (-v / 10)] of a float64: [10 ** -inf = 0.0], [10 ** inf = inf]. *)
Definition db_to_ratio_f (v : f64) : f64 :=
  match v with
  | Fin x => Fin (db_to_ratio x)
  | Inf false => Fin 0
  | Inf true => Inf false
  | NaN => NaN
  end.

(** The sign bit of the float product [k * x]: set when the product is
    negative, and when it is a zero with exactly one negative factor
    ([-0.0]). *)
Definition mul_signbit (k x : R) : bool :=
  if Rlt_dec (k * x) 0 then true
  else if Req_EM_T (k * x) 0 then xorb (Rneg k) (Rneg x)
  else false.

(** The sign bit of [k * v] for a float64 [v], where numpy's check of
    [scale] looks at it: nan ([0 * inf]) is let through. *)
Definition fmul_signbit (k : R) (v : f64) : bool :=
  match v with
  | Fin x => mul_signbit k x
  | Inf s => if Req_EM_T k 0 then false else xorb (Rneg k) s
  | NaN => false
  end.

(** [np.random.normal(0, k * v)] with the standard normal sample [z]:
    [ValueError] for a scale with the sign bit set, else [0 + scale * z]. *)
Definition np_normal (k : R) (v : f64) (z : R) : outcome f64 :=
  if fmul_signbit k v then Raises "ValueError"
  else Done (fadd (Fin 0) (fmul (fmul (Fin k) v) (Fin z))).

(** The same on finite operands: [np.random.normal(0, k * x)]. *)
Definition np_normal_R (k x z : R) : outcome R :=
  if mul_signbit k x then Raises "ValueError" else Done (normal 0 (k * x) z).

(** ** sim8.py: catalog, empirical bending loss, composite loss law *)
Module Sim8.

Record fiber_type := {
  attenuation_coeff : R;
  base_bending_loss : R;
  ideal_bend_radius : R;
  description : string
}.

(** [fiber_types], the catalog dict, as an association list. *)
Definition fiber_types : list (string * fiber_type) := [
  ("G.652D"%string, {| attenuation_coeff := 0.20; base_bending_loss := 0.10;
     ideal_bend_radius := 5.0;
     description := "Standard Single Mode Fiber (ITU-T G.652D) with typical attenuation 0.20 dB/km at 1550 nm." |});
  ("G.657A"%string, {| attenuation_coeff := 0.18; base_bending_loss := 0.05;
     ideal_bend_radius := 3.0;
     description := "Bend Insensitive Fiber (ITU-T G.657A) with improved bending loss and lower attenuation." |});
  ("G.655"%string, {| attenuation_coeff := 0.22; base_bending_loss := 0.15;
     ideal_bend_radius := 5.0;
     description := "Non-Zero Dispersion-Shifted Fiber (ITU-T G.655) with slightly higher attenuation." |});
  ("G.652C"%string, {| attenuation_coeff := 0.22; base_bending_loss := 0.12;
     ideal_bend_radius := 5.0;
     description := "Legacy Standard Single Mode Fiber (ITU-T G.652C) with slightly higher loss and bending sensitivity." |});
  ("G.657B"%string, {| attenuation_coeff := 0.18; base_bending_loss := 0.03;
     ideal_bend_radius := 2.5;
     description := "Ultra Bend Insensitive Fiber (ITU-T G.657B) with extremely low bending loss." |})
].

(** Dict lookup [fiber_types[name]] ([None] where Python raises KeyError). *)
Fixpoint lookup (name : string) (l : list (string * fiber_type)) : option fiber_type :=
  match l with
  | [] => None
  | (k, v) :: rest => if String.eqb k name then Some v else lookup name rest
  end.

(** Global simulation constants. *)
Definition I_in : R := 1000.0.
Definition default_turns : R := 5.
Definition bend_angle : R := 90.0.
Definition room_temperature : R := 25.0.
Definition temp_coefficient : R := 0.0002.
Definition noise_std : R := 0.02.


(** [bending_loss]; [k] is the type of the division [ideal / bend_radius]:
    Python floats in the length and turns sweeps, numpy float64 (the
    [np.linspace] radii) in the bending sweep. *)
Definition bending_loss (k : ftype) (baseline ideal bend_radius bend_angle_deg : R)
    : outcome f64 :=
  q <- div k ideal bend_radius ;;
  Done (fmul (fmul (Fin baseline) q) (Fin (bend_angle_deg / 90.0))).

(** [simulate_output_current]; [k] as for [bending_loss], [z] is the sample
    behind [np.random.normal]. *)
Definition simulate_output_current (k : ftype) (fiber_length bend_radius ambient_temp
    attenuation_coeff base_bending_loss ideal_bend_radius n_turns z : R)
    : outcome (f64 * f64) :=
  let loss_attenuation := attenuation_coeff * fiber_length in
  let loss_temp := temp_coefficient * Rabs (ambient_temp - room_temperature) * fiber_length in
  loss_per_bend <- bending_loss k base_bending_loss ideal_bend_radius bend_radius bend_angle ;;
  let total_bending_loss := fmul (Fin n_turns) loss_per_bend in
  let total_loss := fadd (fadd (Fin loss_attenuation) total_bending_loss) (Fin loss_temp) in
  let I_out := fmul (Fin I_in) (db_to_ratio_f total_loss) in
  noise <- np_normal noise_std I_out z ;;
  Done (fadd I_out noise, total_loss).

(** [np.linspace(start, stop, num)]: [start + i * step] with
    [step = (stop - start) / (num - 1)], the last point set to [stop]. *)
Definition linspace (start stop : R) (num : nat) : list R :=
  map (fun i => if Nat.eqb i (num - 1) then stop
                else start + INR i * ((stop - start) / INR (num - 1)))
      (seq 0 num).

(** [np.arange(a, b)] on integers: [a, a+1, ..., b-1]. *)
Definition arange (a b : Z) : list Z :=
  map (fun k => (a + Z.of_nat k)%Z) (seq 0 (Z.to_nat (b - a))).

(** Apply [f] to each element together with its position (the loop index,
    used to pick the i-th noise sample). *)
Definition mapi {A B : Type} (f : nat -> A -> B) (l : list A) : list B :=
  map (fun p => f (fst p) (snd p)) (combine (seq 0 (List.length l)) l).

(** [run_length_simulation]: each entry is [Some x] when [float(entry.get())]
    succeeds and [None] when it raises [ValueError]; [draws i] is the normal
    sample of the i-th loop iteration.  The bend radius is a Python float.
    Result: [length_sim_data]. *)
Definition run_length_simulation (fiber : string)
    (length_start length_end ambient_temp bend_radius : option R)
    (draws : nat -> R) : outcome (list R * list f64 * list f64) :=
  match length_start, length_end with
  | Some ls, Some le =>
    match ambient_temp with
    | Some t =>
      match bend_radius with
      | Some r =>
        match lookup fiber fiber_types with
        | None => Raises "KeyError"
        | Some params =>
          let fiber_lengths := linspace ls le 100 in
          res <- collect (mapi (fun i L =>
              simulate_output_current Python_float L r t (attenuation_coeff params)
                (base_bending_loss params) (ideal_bend_radius params)
                default_turns (draws i)) fiber_lengths) ;;
          Done (fiber_lengths, map fst res, map snd res)
        end
      | None => Message "Enter a valid bending radius (cm) for length simulation."
      end
    | None => Message "Enter a valid ambient temperature (°C)."
    end
  | _, _ => Message "Enter valid fiber length values (km)."
  end.

(** [run_turns_simulation]: turn bounds parsed by [int()]; the sweep runs
    over [np.arange(turn_from, turn_to + 1)] with a Python-float radius.
    The final label reads [n_turns_array[-1]], which raises [IndexError] on
    an empty range. *)
Definition run_turns_simulation (fiber : string) (fixed_length : option R)
    (turn_from turn_to : option Z) (bend_radius ambient_temp : option R)
    (draws : nat -> R) : outcome (list Z * list f64 * list f64) :=
  match fixed_length with
  | None => Message "Enter a valid fixed fiber length (km) for turns simulation."
  | Some L =>
    match turn_from, turn_to with
    | Some a, Some b =>
      match bend_radius with
      | None => Message "Enter a valid bending radius (cm) for turns simulation."
      | Some r =>
        match ambient_temp with
        | None => Message "Enter a valid ambient temperature (°C)."
        | Some t =>
          match lookup fiber fiber_types with
          | None => Raises "KeyError"
          | Some params =>
            let n_turns_array := arange a (b + 1)%Z in
            res <- collect (mapi (fun i n =>
                simulate_output_current Python_float L r t (attenuation_coeff params)
                  (base_bending_loss params) (ideal_bend_radius params)
                  (IZR n) (draws i)) n_turns_array) ;;
            match n_turns_array with
            | [] => Raises "IndexError"
            | _ => Done (n_turns_array, map fst res, map snd res)
            end
          end
        end
      end
    | _, _ => Message "Enter valid turn range values (integer)."
    end
  end.

(** [run_bending_simulation]: a sweep of the bend radius over
    [np.linspace(bend_from, bend_to, 100)] (numpy float64 radii) at a fixed
    length.  Result: [bending_sim_data]. *)
Definition run_bending_simulation (fiber : string)
    (fixed_length bend_from bend_to ambient_temp : option R)
    (draws : nat -> R) : outcome (list R * list f64 * list f64) :=
  match fixed_length with
  | None => Message "Enter a valid fixed fiber length (km) for bending simulation."
  | Some L =>
    match bend_from, bend_to with
    | Some rf, Some rt =>
      match ambient_temp with
      | None => Message "Enter a valid ambient temperature (°C)."
      | Some t =>
        match lookup fiber fiber_types with
        | None => Raises "KeyError"
        | Some params =>
          let bend_radii := linspace rf rt 100 in
          res <- collect (mapi (fun i R =>
              simulate_output_current Numpy_float64 L R t (attenuation_coeff params)
                (base_bending_loss params) (ideal_bend_radius params)
                default_turns (draws i)) bend_radii) ;;
          Done (bend_radii, map fst res, map snd res)
        end
      end
    | _, _ => Message "Enter valid bending radius range values (cm)."
    end
  end.

End Sim8.


(** ** sim1.py: numerical aperture *)
Module Sim1.

(** [np.degrees]. *)
Definition degrees (x : R) : R := x * 180 / PI.

(** [calculate_numerical_aperture(D, b)]; [D] and [b] are Python floats, so
    [D / (2 * b)] raises [ZeroDivisionError] when [b] is zero. *)
Definition calculate_numerical_aperture (D b : R) : outcome (R * R) :=
  if Req_EM_T (2 * b) 0 then Raises "ZeroDivisionError"
  else
    let theta := atan (D / (2 * b)) in
    let NA := sin theta in
    let theta_deg := degrees theta in
    Done (theta_deg, NA).

End Sim1.


(** ** sim2.py: the composite loss law with its own constants *)
Module Sim2.

Definition I_in : R := 1000.0.
Definition attenuation_coeff : R := 0.00385.
Definition base_bending_loss : R := 0.2.
Definition number_of_bends : R := 5.
Definition bend_angle : R := 90.0.
Definition ideal_bend_radius : R := 10.0.
Definition room_temperature : R := 25.0.
Definition temp_coefficient : R := 0.0002.

(** [bending_loss]; the script's bend radius is the Python float [5.0], so
    [ideal_bend_radius / bend_radius] is a Python division. *)
Definition bending_loss (bend_radius bend_angle_deg : R) : outcome R :=
  q <- py_div ideal_bend_radius bend_radius ;;
  Done (base_bending_loss * q * (bend_angle_deg / 90.0)).

Definition simulate_output_current (fiber_length bend_radius ambient_temp noise_std z : R)
    : outcome (R * R) :=
  let loss_attenuation := attenuation_coeff * fiber_length in
  let temp_loss := temp_coefficient * Rabs (ambient_temp - room_temperature) * fiber_length in
  loss_per_bend <- bending_loss bend_radius bend_angle ;;
  let total_bending_loss := number_of_bends * loss_per_bend in
  let total_loss := loss_attenuation + total_bending_loss + temp_loss in
  let I_out := I_in * db_to_ratio total_loss in
  noise <- np_normal_R noise_std I_out z ;;
  let I_out_noisy := I_out + noise in
  Done (I_out_noisy, total_loss).

End Sim2.

(** ** sim12.py: the two bending-loss models selected by name *)
Module Sim12.

Record fiber_type := {
  attenuation_coeff : R;
  base_bending_loss : R;
  ideal_bend_radius : R;
  MFD : R;
  A : R;
  B : R;
  description : string
}.

Definition fiber_types : list (string * fiber_type) := [
  ("G.652D"%string, {| attenuation_coeff := 0.20; base_bending_loss := 0.10;
     ideal_bend_radius := 5.0; MFD := 9.2; A := 0.2; B := 1.5;
     description := "Standard Single Mode Fiber (ITU-T G.652D) with attenuation 0.20 dB/km at 1550 nm." |});
  ("G.657A"%string, {| attenuation_coeff := 0.18; base_bending_loss := 0.05;
     ideal_bend_radius := 3.0; MFD := 8.8; A := 0.1; B := 1.8;
     description := "Bend Insensitive Fiber (ITU-T G.657A) with lower bending loss." |});
  ("G.655"%string, {| attenuation_coeff := 0.22; base_bending_loss := 0.15;
     ideal_bend_radius := 5.0; MFD := 10.0; A := 0.25; B := 1.3;
     description := "Non-Zero Dispersion-Shifted Fiber (ITU-T G.655)." |})
].

Definition bend_angle : R := 90.0.

(** The radius [R] of the source is named [Rb] here ([R] is the type).  It is
    an element of [np.linspace], a numpy float64, and so are the results. *)
Definition marcuse_bending_loss (A B Rb MFD : R) : f64 :=
  fmul (Fin A) (np_exp_f (fmul (Fin (- B)) (np_div Rb MFD))).

Definition empirical_bending_loss (base_loss ideal_radius bend_radius bend_angle_deg : R) : f64 :=
  fmul (fmul (Fin base_loss) (np_div ideal_radius bend_radius)) (Fin (bend_angle_deg / 90.0)).

(** The per-radius body of [simulate_bending_loss]: the string [model]
    selects Marcuse, anything else the empirical formula. *)
Definition model_loss (model : string) (params : fiber_type) (Rb : R) : f64 :=
  if String.eqb model "Marcuse" then marcuse_bending_loss (A params) (B params) Rb (MFD params)
  else empirical_bending_loss (base_bending_loss params) (ideal_bend_radius params) Rb bend_angle.

(** Dict lookup [fiber_types[name]] ([None] where Python raises KeyError). *)
Fixpoint lookup (name : string) (l : list (string * fiber_type)) : option fiber_type :=
  match l with
  | [] => None
  | (k, v) :: rest => if String.eqb k name then Some v else lookup name rest
  end.

(** [simulate_bending_loss(fiber_type, bend_radii, model)]. *)
Definition simulate_bending_loss (fiber : string) (bend_radii : list R) (model : string)
    : outcome (list f64) :=
  match lookup fiber fiber_types with
  | None => Raises "KeyError"
  | Some params => Done (map (model_loss model params) bend_radii)
  end.

(** [run_bending_simulation]: bend radii from [np.linspace(bend_from,
    bend_to, 100)] and their losses under the selected model. *)
Definition run_bending_simulation (fiber model : string) (bend_from bend_to : option R)
    : outcome (list R * list f64) :=
  match bend_from, bend_to with
  | Some rf, Some rt =>
    let bend_radii := Sim8.linspace rf rt 100 in
    loss_values <- simulate_bending_loss fiber bend_radii model ;;
    Done (bend_radii, loss_values)
  | _, _ => Message "Enter valid bending radius range values (cm)."
  end.

End Sim12.

(** ** sim13.py: physical exponential bending model *)
Module Sim13.

(** A Python number: a float (a Python float or a numpy float64), or the
    complex value that [float ** float] yields for a negative base and a
    non-integral exponent. *)
Inductive pynum :=
| PyReal (v : f64)
| PyComplex (re im : R).

(** [c ** (3/2)] for a Python float [c]: [0.0] at zero, the real power for a
    positive base, and for a negative base the principal complex value
    [|c|^(3/2) * (cos(3/2 pi) + i sin(3/2 pi))]. *)
Definition pow_3_2 (c : R) : pynum :=
  if Rlt_dec c 0 then
    PyComplex (Rpower (- c) (3/2) * cos (3/2 * PI)) (Rpower (- c) (3/2) * sin (3/2 * PI))
  else if Req_EM_T c 0 then PyReal (Fin 0)
  else PyReal (Fin (Rpower c (3/2))).

(** Multiplication of a Python number by a float. *)
Definition scale (k : R) (v : pynum) : pynum :=
  match v with
  | PyReal x => PyReal (fmul (Fin k) x)
  | PyComplex re im => PyComplex (k * re) (k * im)
  end.

(** Addition of a float and a Python number (float addition commutes). *)
Definition add (x : R) (v : pynum) : pynum :=
  match v with
  | PyReal y => PyReal (fadd (Fin x) y)
  | PyComplex re im => PyComplex (x + re) im
  end.

(** [np.exp] on a float or a complex number. *)
Definition py_exp (v : pynum) : pynum :=
  match v with
  | PyReal x => PyReal (np_exp_f x)
  | PyComplex re im => PyComplex (exp re * cos im) (exp re * sin im)
  end.

Record fiber_type := {
  attenuation_coeff : R;
  description : string;
  core_radius : R;
  n1 : R;
  n2 : R;
  wavelength : R
}.

(** [fiber_types] of sim13.py. *)
Definition fiber_types : list (string * fiber_type) := [
  ("G.652D"%string, {| attenuation_coeff := 0.20;
     description := "Standard Single Mode Fiber (ITU-T G.652D) with typical attenuation 0.20 dB/km at 1550 nm.";
     core_radius := 4.1e-6; n1 := 1.4682; n2 := 1.462; wavelength := 1550e-9 |});
  ("G.657A"%string, {| attenuation_coeff := 0.18;
     description := "Bend Insensitive Fiber (ITU-T G.657A) with improved bending performance and lower attenuation.";
     core_radius := 4.1e-6; n1 := 1.4682; n2 := 1.462; wavelength := 1550e-9 |});
  ("G.655"%string, {| attenuation_coeff := 0.22;
     description := "Non-Zero Dispersion-Shifted Fiber (ITU-T G.655) with slightly higher attenuation and a modestly adjusted cladding index.";
     core_radius := 4.1e-6; n1 := 1.4682; n2 := 1.455; wavelength := 1550e-9 |});
  ("G.652C"%string, {| attenuation_coeff := 0.22;
     description := "Legacy Standard Single Mode Fiber (ITU-T G.652C) with higher loss and bending sensitivity.";
     core_radius := 4.1e-6; n1 := 1.4682; n2 := 1.462; wavelength := 1550e-9 |});
  ("G.657B"%string, {| attenuation_coeff := 0.18;
     description := "Ultra Bend Insensitive Fiber (ITU-T G.657B) offering extremely low bending loss with a marginally reduced cladding index.";
     core_radius := 4.1e-6; n1 := 1.4682; n2 := 1.460; wavelength := 1550e-9 |});
  ("OM1"%string, {| attenuation_coeff := 3.0;
     description := "Multimode Fiber OM1 (62.5/125 µm) optimized for 850 nm operation.";
     core_radius := 31.25e-6; n1 := 1.50; n2 := 1.46; wavelength := 850e-9 |});
  ("OM3"%string, {| attenuation_coeff := 3.5;
     description := "Multimode Fiber OM3 (50/125 µm) designed for high-speed 10 Gb/s data transmission at 850 nm.";
     core_radius := 25e-6; n1 := 1.48; n2 := 1.46; wavelength := 850e-9 |});
  ("OM4"%string, {| attenuation_coeff := 3.5;
     description := "Multimode Fiber OM4 with improved bandwidth for high-speed data centers at 850 nm.";
     core_radius := 25e-6; n1 := 1.48; n2 := 1.46; wavelength := 850e-9 |})
].

Fixpoint lookup (name : string) (l : list (string * fiber_type)) : option fiber_type :=
  match l with
  | [] => None
  | (k, v) :: rest => if String.eqb k name then Some v else lookup name rest
  end.

Definition default_turns : R := 5.

Definition room_temperature : R := 25.0.
Definition temp_coefficient : R := 0.0000.
Definition noise_std : R := 0.00.

(** [bending_loss(core_radius, n1, n2, wavelength, bend_radius_cm)].  All
    arguments are Python floats except the bend radius of the bending sweep
    (an element of [np.linspace]); [R_m / core_radius] is then a numpy
    division, which differs from Python's only at a zero core radius, and
    no catalog fibre has one. *)
Definition bending_loss (core_radius n1 n2 wavelength bend_radius_cm : R) : outcome pynum :=
  let R_m := bend_radius_cm * 0.01 in
  q <- py_div (PI * core_radius * n1) wavelength ;;
  let factor := q ^ 2 in
  r <- py_div R_m core_radius ;;
  Done (scale (0.5 * factor)
          (py_exp (scale (- (4/3) * r) (pow_3_2 (n1 ^ 2 - n2 ^ 2))))).

(** The sign bit of the real part of [k * (re + im j)], the scale numpy
    takes from a complex [noise_std * total_loss] (it discards the imaginary
    part with a ComplexWarning): that real part is [k * re - 0.0 * im]. *)
Definition complex_scale_signbit (k re im : R) : bool :=
  if Rlt_dec (k * re) 0 then true
  else if Req_EM_T (k * re) 0 then xorb (Rneg k) (Rneg re) && negb (Rneg im)
  else false.

(** [simulate_total_loss]; [z] is the sample behind [np.random.normal]. *)
Definition simulate_total_loss (fiber_length bend_radius_cm ambient_temp
    attenuation_coeff core_radius n1 n2 wavelength n_turns z : R) : outcome pynum :=
  let loss_attenuation := attenuation_coeff * fiber_length in
  let loss_temp := temp_coefficient * Rabs (ambient_temp - room_temperature) * fiber_length in
  loss_per_bend <- bending_loss core_radius n1 n2 wavelength bend_radius_cm ;;
  let total_bending_loss := scale n_turns loss_per_bend in
  let total_loss := add loss_temp (add loss_attenuation total_bending_loss) in
  match total_loss with
  | PyReal v =>
    noise <- np_normal noise_std v z ;;
    Done (PyReal (fadd v noise))
  | PyComplex re im =>
    if complex_scale_signbit noise_std re im then Raises "ValueError"
    else Done (PyComplex (re + normal 0 (noise_std * re) z) im)
  end.

(** The sweeps' common loop: [simulate_total_loss] at each point, the i-th
    call drawing [draws i]. *)
Definition sweep_losses (f : R -> R -> outcome pynum) (xs : list R) (draws : nat -> R)
    : outcome (list pynum) :=
  collect (Sim8.mapi (fun i x => f x (draws i)) xs).

(** [run_length_simulation] of sim13.py.  Result: [length_sim_data]. *)
Definition run_length_simulation (fiber : string)
    (length_start length_end ambient_temp bend_radius_cm : option R)
    (draws : nat -> R) : outcome (list R * list pynum) :=
  match length_start, length_end with
  | Some ls, Some le =>
    match ambient_temp with
    | None => Message "Enter a valid ambient temperature (°C)."
    | Some t =>
      match bend_radius_cm with
      | None => Message "Enter a valid bending radius (cm) for length sim."
      | Some r =>
        match lookup fiber fiber_types with
        | None => Raises "KeyError"
        | Some p =>
          let fiber_lengths := Sim8.linspace ls le 100 in
          loss_values <- sweep_losses (fun L z => simulate_total_loss L r t
                  (attenuation_coeff p) (core_radius p) (n1 p) (n2 p) (wavelength p)
                  default_turns z) fiber_lengths draws ;;
          Done (fiber_lengths, loss_values)
        end
      end
    end
  | _, _ => Message "Enter valid fiber length values (km)."
  end.

(** [run_bending_simulation] of sim13.py.  Result: [bending_sim_data]. *)
Definition run_bending_simulation (fiber : string)
    (fixed_length bend_from bend_to ambient_temp : option R)
    (draws : nat -> R) : outcome (list R * list pynum) :=
  match fixed_length with
  | None => Message "Enter a valid fixed fiber length (km) for bending sim."
  | Some L =>
    match bend_from, bend_to with
    | Some rf, Some rt =>
      match ambient_temp with
      | None => Message "Enter a valid ambient temperature (°C)."
      | Some t =>
        match lookup fiber fiber_types with
        | None => Raises "KeyError"
        | Some p =>
          let bend_radii := Sim8.linspace rf rt 100 in
          loss_values <- sweep_losses (fun R z => simulate_total_loss L R t
                  (attenuation_coeff p) (core_radius p) (n1 p) (n2 p) (wavelength p)
                  default_turns z) bend_radii draws ;;
          Done (bend_radii, loss_values)
        end
      end
    | _, _ => Message "Enter valid bending radius range values (cm)."
    end
  end.

(** [run_turns_simulation] of sim13.py; the final label reads
    [n_turns_array[-1]], which raises [IndexError] on an empty range. *)
Definition run_turns_simulation (fiber : string) (fixed_length : option R)
    (turn_from turn_to : option Z) (bend_radius_cm ambient_temp : option R)
    (draws : nat -> R) : outcome (list Z * list pynum) :=
  match fixed_length with
  | None => Message "Enter a valid fixed fiber length (km) for turns sim."
  | Some L =>
    match turn_from, turn_to with
    | Some a, Some b =>
      match bend_radius_cm with
      | None => Message "Enter a valid bending radius (cm) for turns sim."
      | Some r =>
        match ambient_temp with
        | None => Message "Enter a valid ambient temperature (°C)."
        | Some t =>
          match lookup fiber fiber_types with
          | None => Raises "KeyError"
          | Some p =>
            let n_turns_array := Sim8.arange a (b + 1)%Z in
            loss_values <- sweep_losses (fun n z => simulate_total_loss L r t
                    (attenuation_coeff p) (core_radius p) (n1 p) (n2 p) (wavelength p) n z)
                    (map IZR n_turns_array) draws ;;
            match n_turns_array with
            | [] => Raises "IndexError"
            | _ => Done (n_turns_array, loss_values)
            end
          end
        end
      end
    | _, _ => Message "Enter valid turn range values (integer)."
    end
  end.

End Sim13.


(** ** sim3.py: Monte Carlo over randomly perturbed bend radii *)
Module Sim3.

Definition I_in : R := 1000.0.
Definition num_rays : Z := 100000.
Definition fiber_length : R := 5.0.
Definition attenuation_coeff : R := 0.00385.
Definition room_temp : R := 25.0.
Definition ambient_temp : R := 30.0.
Definition temp_coefficient : R := 0.0002.
Definition number_of_bends : nat := 5.
Definition ideal_bend_radius : R := 10.0.
Definition base_bending_loss : R := 0.2.

(** Python's [max(x, 1.0)]. *)
Definition py_max (x y : R) : R := if Rlt_dec x y then y else x.

(** [random_bending_loss()]; [z] is the sample behind [np.random.normal]. *)
Definition random_bending_loss (z : R) : R :=
  let bend_radius := normal 5.0 0.5 z in
  let bend_radius := py_max bend_radius 1.0 in
  base_bending_loss * (ideal_bend_radius / bend_radius).

(** Python's [sum] over a generator: [0] plus the terms left to right. *)
Definition py_sum (l : list R) : R := fold_left Rplus l 0.

(** [simulate_ray()]; [draws k] is the sample of the k-th bend. *)
Definition simulate_ray (draws : nat -> R) : R * R :=
  let loss_attenuation := attenuation_coeff * fiber_length in
  let loss_temp := temp_coefficient * Rabs (ambient_temp - room_temp) * fiber_length in
  let total_bending_loss :=
    py_sum (map (fun k => random_bending_loss (draws k)) (seq 0 number_of_bends)) in
  let total_loss := loss_attenuation + total_bending_loss + loss_temp in
  let I_out := I_in * db_to_ratio total_loss in
  (I_out, total_loss).

(** The loop over rays: ray [i] consumes the samples [draws (5 i + k)]. *)
Definition simulate_rays (n : nat) (draws : nat -> R) : list (R * R) :=
  map (fun i => simulate_ray (fun k => draws (number_of_bends * i + k)%nat)) (seq 0 n).

(** [np.mean] of a non-empty list. *)
Definition mean (l : list R) : R := fold_left Rplus l 0 / INR (List.length l).

(** [np.std]: the population standard deviation. *)
Definition std (l : list R) : R :=
  let m := mean l in sqrt (mean (map (fun x => (x - m) ^ 2) l)).

(** The script's main loop over [num_rays] rays and its two statistics. *)
Definition monte_carlo (n : nat) (draws : nat -> R) : list R * list R * R * R :=
  let rays := simulate_rays n draws in
  let ray_outputs := map fst rays in
  let ray_losses := map snd rays in
  (ray_outputs, ray_losses, mean ray_outputs, std ray_outputs).

End Sim3.


(** ** sim4.py: hybrid stepwise propagation with random bend events *)
Module Sim4.

(** Loop state: cumulative loss, [loss_profile], events seen so far. *)
Record state := { total_loss_dB : R; loss_profile : list R; events_seen : nat }.

(** One iteration of [for step in range(num_steps)]; [bend_event_indices]
    is the sorted random choice, [draws k] the sample of the k-th event. *)
Definition step_body (dz ambient_temp room_temp attenuation_coeff temp_coefficient : R)
    (bend_event_indices : list nat) (draws : nat -> R) (st : state) (step : nat) : state :=
  let loss_attenuation := attenuation_coeff * dz in
  let loss_temp := temp_coefficient * Rabs (ambient_temp - room_temp) * dz in
  let t := total_loss_dB st + (loss_attenuation + loss_temp) in
  if existsb (Nat.eqb step) bend_event_indices then
    let bending_loss_dB := normal 0.2 0.05 (draws (events_seen st)) in
    let t' := t + bending_loss_dB in
    {| total_loss_dB := t'; loss_profile := loss_profile st ++ [t'];
       events_seen := S (events_seen st) |}
  else
    {| total_loss_dB := t; loss_profile := loss_profile st ++ [t];
       events_seen := events_seen st |}.

(** [hybrid_simulation]: [fiber_length_km / num_steps] raises
    [ZeroDivisionError] for zero steps, and [np.random.choice] without
    replacement raises [ValueError] for more events than steps, as does
    [np.random.normal] for a negative [noise_std * I_out].  The choice
    itself, already sorted, is the input [bend_event_indices]; [draws] are
    the event samples and [noise_z] the sample of the output noise. *)
Definition hybrid_simulation (I_in fiber_length_km : R) (num_steps num_bend_events : nat)
    (ambient_temp room_temp attenuation_coeff temp_coefficient noise_std : R)
    (bend_event_indices : list nat) (draws : nat -> R) (noise_z : R)
    : outcome (R * list R * list nat) :=
  if Nat.eqb num_steps 0 then Raises "ZeroDivisionError"
  else if Nat.ltb num_steps num_bend_events then Raises "ValueError"
  else
    let dz := fiber_length_km / INR num_steps in
    let st := fold_left
        (step_body dz ambient_temp room_temp attenuation_coeff temp_coefficient
           bend_event_indices draws)
        (seq 0 num_steps)
        {| total_loss_dB := 0.0; loss_profile := []; events_seen := 0 |} in
    let I_out := I_in * db_to_ratio (total_loss_dB st) in
    noise <- np_normal_R noise_std I_out noise_z ;;
    let I_out_noisy := I_out + noise in
    Done (I_out_noisy, loss_profile st, bend_event_indices).

(** Every element of the list is at most the next one. *)
Fixpoint nondecreasing (l : list R) : Prop :=
  match l with
  | x :: ((y :: _) as rest) => x <= y /\ nondecreasing rest
  | _ => True
  end.

End Sim4.

(** Every element of the list is smaller than the next one. *)
Fixpoint strictly_increasing (l : list R) : Prop :=
  match l with
  | x :: ((y :: _) as rest) => x < y /\ strictly_increasing rest
  | _ => True
  end.

(** Every element of the list is larger than the next one. *)
Fixpoint strictly_decreasing (l : list R) : Prop :=
  match l with
  | x :: ((y :: _) as rest) => y < x /\ strictly_decreasing rest
  | _ => True
  end.

(** Every element of the list is at most the next one. *)
Fixpoint non_decreasing (l : list R) : Prop :=
  match l with
  | x :: ((y :: _) as rest) => x <= y /\ non_decreasing rest
  | _ => True
  end.

(** Every element of the list is at least the next one. *)
Fixpoint non_increasing (l : list R) : Prop :=
  match l with
  | x :: ((y :: _) as rest) => y <= x /\ non_increasing rest
  | _ => True
  end.


(** * Properties *)

(** ** The float layer *)

Lemma py_div_nonzero (x y : R) : y <> 0 -> py_div x y = Done (x / y).
Proof. intro Hy. unfold py_div. destruct (Req_EM_T y 0); [contradiction | reflexivity]. Qed.

Lemma py_div_zero (x : R) : py_div x 0 = Raises "ZeroDivisionError".
Proof. unfold py_div. destruct (Req_EM_T 0 0); [reflexivity | contradiction]. Qed.

Lemma np_div_nonzero (x y : R) : y <> 0 -> np_div x y = Fin (x / y).
Proof. intro Hy. unfold np_div. destruct (Req_EM_T y 0); [contradiction | reflexivity]. Qed.

Lemma np_div_zero_pos (x : R) : 0 < x -> np_div x 0 = Inf false.
Proof.
  intro Hx. unfold np_div, Rneg.
  destruct (Req_EM_T 0 0) as [_ | H]; [| contradiction].
  destruct (Req_EM_T x 0); [lra |]. destruct (Rlt_dec x 0); [lra | reflexivity].
Qed.

Lemma div_nonzero (k : ftype) (x y : R) : y <> 0 -> div k x y = Done (Fin (x / y)).
Proof.
  intro Hy. destruct k; cbn [div].
  - rewrite py_div_nonzero by exact Hy. reflexivity.
  - rewrite np_div_nonzero by exact Hy. reflexivity.
Qed.

Lemma Rneg_false (x : R) : 0 <= x -> Rneg x = false.
Proof. intro H. unfold Rneg. destruct (Rlt_dec x 0); [lra | reflexivity]. Qed.

Lemma Rneg_true (x : R) : x < 0 -> Rneg x = true.
Proof. intro H. unfold Rneg. destruct (Rlt_dec x 0); [reflexivity | lra]. Qed.

Lemma mul_signbit_nonneg (k x : R) : 0 <= k -> 0 <= x -> mul_signbit k x = false.
Proof.
  intros Hk Hx. unfold mul_signbit.
  destruct (Rlt_dec (k * x) 0); [nra |].
  destruct (Req_EM_T (k * x) 0); [| reflexivity].
  rewrite !Rneg_false by assumption. reflexivity.
Qed.

Lemma mul_signbit_neg (k x : R) : k * x < 0 -> mul_signbit k x = true.
Proof. intro H. unfold mul_signbit. destruct (Rlt_dec (k * x) 0); [reflexivity | lra]. Qed.

(** With a zero factor the sign bit is that of the other factor. *)
Lemma mul_signbit_zero (x : R) : mul_signbit 0 x = Rneg x.
Proof.
  unfold mul_signbit. rewrite Rmult_0_l.
  destruct (Rlt_dec 0 0); [lra |].
  destruct (Req_EM_T 0 0); [| contradiction].
  rewrite (Rneg_false 0) by lra. reflexivity.
Qed.

Lemma exp_tiny_pos : 0 < exp_tiny.
Proof. unfold exp_tiny. apply Rinv_0_lt_compat, IZR_lt. reflexivity. Qed.

Lemma exp_huge_gt_1 : 1 < exp_huge.
Proof. unfold exp_huge. apply IZR_lt. reflexivity. Qed.

Lemma exp_le_mono (x y : R) : x <= y -> exp x <= exp y.
Proof.
  intro H. destruct (Rle_lt_or_eq_dec x y H) as [Hl | ->].
  - left. apply exp_increasing. exact Hl.
  - right. reflexivity.
Qed.

(** [np.exp] of a non-positive float is finite: [0.0] on underflow. *)
Lemma np_exp_nonpos (x : R) :
  x <= 0 -> np_exp x = Fin (if Rle_dec (exp x) exp_tiny then 0 else exp x).
Proof.
  intro Hx. unfold np_exp.
  destruct (Rle_dec (exp x) exp_tiny); [reflexivity |].
  destruct (Rle_dec exp_huge (exp x)) as [H | _]; [| reflexivity].
  exfalso. pose proof exp_huge_gt_1.
  assert (exp x <= 1) by (rewrite <- exp_0; apply exp_le_mono; lra). lra.
Qed.


Lemma np_exp_underflow (x : R) : exp x <= exp_tiny -> np_exp x = Fin 0.
Proof. intro H. unfold np_exp. destruct (Rle_dec (exp x) exp_tiny); [reflexivity | lra]. Qed.

(** [np.exp] is monotone on the non-positive floats, strictly while the
    smaller argument does not underflow. *)
Lemma np_exp_nonpos_le (x y : R) :
  y <= x -> x <= 0 ->
  exists ex ey, np_exp x = Fin ex /\ np_exp y = Fin ey /\ 0 <= ey <= ex /\ ex <= exp x /\
    (y < x -> exp_tiny < exp y -> ey < ex).
Proof.
  intros Hyx Hx.
  rewrite (np_exp_nonpos x Hx), (np_exp_nonpos y) by lra.
  pose proof exp_tiny_pos as Ht.
  pose proof (exp_pos x). pose proof (exp_pos y).
  assert (Hle : exp y <= exp x) by (apply exp_le_mono; exact Hyx).
  destruct (Rle_dec (exp x) exp_tiny); destruct (Rle_dec (exp y) exp_tiny);
    eexists; eexists; repeat split; try reflexivity; intros;
    try lra; try (apply exp_increasing; assumption).
Qed.

Lemma exp_pow (n : nat) (x : R) : exp (INR n * x) = exp x ^ n.
Proof.
  induction n as [| n IH].
  - cbn. rewrite Rmult_0_l. apply exp_0.
  - rewrite S_INR, Rmult_plus_distr_r, Rmult_1_l, exp_plus, IH. cbn. ring.
Qed.

(** [np.exp] does not underflow from [-600] on: [exp (-600) >= 3^-600 > 2^-1075]. *)
Lemma exp_no_underflow (x : R) : -600 <= x -> exp_tiny < exp x.
Proof.
  intro Hx. unfold exp_tiny.
  assert (H600 : exp 600 <= 3 ^ 600).
  { replace 600 with (INR 600 * 1) by (rewrite Rmult_1_r; cbn; ring).
    rewrite exp_pow. apply pow_incr. split; [left; apply exp_pos | apply exp_le_3]. }
  assert (H3 : 3 ^ 600 < IZR (2 ^ 1075)).
  { rewrite pow_IZR. apply IZR_lt. vm_compute. reflexivity. }
  assert (Hm : exp (- (600)) <= exp x) by (apply exp_le_mono; lra).
  rewrite exp_Ropp in Hm.
  assert (/ IZR (2 ^ 1075) < / exp 600).
  { apply Rinv_lt_contravar; [apply Rmult_lt_0_compat; [apply exp_pos | lra] | lra]. }
  lra.
Qed.

(** [c ** (3/2) = c * sqrt c] for a positive float [c]. *)
Lemma rpower_3_2 (c : R) : 0 < c -> Rpower c (3/2) = c * sqrt c.
Proof.
  intro Hc. replace (3/2) with (1 + / 2) by field.
  rewrite Rpower_plus, Rpower_1, Rpower_sqrt by exact Hc. reflexivity.
Qed.

Lemma collect_map_done {A : Type} (l : list A) : collect (map Done l) = Done l.
Proof. induction l as [| x l IH]; cbn; [reflexivity |]. rewrite IH. reflexivity. Qed.

Lemma mapi_from_done {A B : Type} (f : nat -> A -> outcome B) (g : nat -> A -> B)
    (l : list A) :
  (forall i x, In x l -> f i x = Done (g i x)) ->
  forall k,
  map (fun p => f (fst p) (snd p)) (combine (seq k (List.length l)) l) =
  map Done (map (fun p => g (fst p) (snd p)) (combine (seq k (List.length l)) l)).
Proof.
  induction l as [| x l IH]; intros Hfg k; [reflexivity |].
  cbn. rewrite Hfg by (left; reflexivity). f_equal.
  apply IH. intros i y Hy. apply Hfg. right. exact Hy.
Qed.

(** A loop whose every iteration succeeds returns all the results. *)
Lemma collect_mapi_done {A B : Type} (f : nat -> A -> outcome B) (g : nat -> A -> B)
    (l : list A) :
  (forall i x, In x l -> f i x = Done (g i x)) -> collect (Sim8.mapi f l) = Done (Sim8.mapi g l).
Proof.
  intro Hfg. unfold Sim8.mapi. rewrite (mapi_from_done f g l Hfg 0).
  apply collect_map_done.
Qed.

Lemma db_to_ratio_pos (l : R) : 0 < db_to_ratio l.
Proof. unfold db_to_ratio, Rpower. apply exp_pos. Qed.

Lemma db_to_ratio_decreasing (l1 l2 : R) : l1 < l2 -> db_to_ratio l2 < db_to_ratio l1.
Proof.
  intro H. unfold db_to_ratio, Rpower. apply exp_increasing.
  assert (Hln : 0 < ln 10) by (rewrite <- ln_1; apply ln_increasing; lra).
  nra.
Qed.

Lemma db_to_ratio_le_1 (l : R) : 0 <= l -> db_to_ratio l <= 1.
Proof.
  intro H. destruct (Req_dec l 0) as [-> | Hn].
  - unfold db_to_ratio. replace (- 0 / 10) with 0 by field. rewrite Rpower_O; lra.
  - replace 1 with (db_to_ratio 0).
    + apply Rlt_le, db_to_ratio_decreasing. lra.
    + unfold db_to_ratio. replace (- 0 / 10) with 0 by field. apply Rpower_O. lra.
Qed.

Lemma db_to_ratio_antitone (l1 l2 : R) : l1 <= l2 -> db_to_ratio l2 <= db_to_ratio l1.
Proof.
  intro H. destruct (Req_dec l1 l2) as [-> | Hn]; [lra |].
  apply Rlt_le, db_to_ratio_decreasing. lra.
Qed.

Lemma db_to_ratio_0 : db_to_ratio 0 = 1.
Proof. unfold db_to_ratio. replace (- 0 / 10) with 0 by field. apply Rpower_O. lra. Qed.

(** [exp 1 >= 53/20]: [exp (1/20) >= 1 + 1/20]. *)
Lemma exp_1_ge : 53 / 20 <= exp 1.
Proof.
  replace 1 with (INR 20 * / 20) by (cbn; field).
  rewrite exp_pow.
  apply Rle_trans with ((1 + / 20) ^ 20).
  - cbn. lra.
  - apply pow_incr. split; [lra |]. apply exp_ineq1_le.
Qed.

Lemma collect_raises {A : Type} (o : outcome A) (l : list (outcome A)) (e : string) :
  o = Raises e -> collect (o :: l) = Raises e.
Proof. intros ->. reflexivity. Qed.

(** [np.exp] underflows up to [-800]: [exp 800 >= (53/20)^800 >= 2^1075]. *)
Lemma exp_underflow (x : R) : x <= -800 -> exp x <= exp_tiny.
Proof.
  intro Hx. unfold exp_tiny.
  pose proof exp_1_ge as He.
  assert (H800 : (53 / 20) ^ 800 <= exp 800).
  { replace 800 with (INR 800 * 1) by (rewrite Rmult_1_r; cbn; ring).
    rewrite exp_pow. apply pow_incr. split; [lra | exact He]. }
  assert (Hz : IZR (2 ^ 1075) <= (53 / 20) ^ 800).
  { unfold Rdiv. rewrite Rpow_mult_distr, pow_inv, !pow_IZR.
    apply Rmult_le_reg_r with (IZR (20 ^ Z.of_nat 800)).
    - apply IZR_lt. vm_compute. reflexivity.
    - rewrite Rmult_assoc, Rinv_l by (apply not_0_IZR; vm_compute; discriminate).
      rewrite Rmult_1_r, <- mult_IZR. apply IZR_le. vm_compute. discriminate. }
  assert (Hm : exp x <= exp (- (800))) by (apply exp_le_mono; lra).
  rewrite exp_Ropp in Hm.
  assert (/ exp 800 <= / IZR (2 ^ 1075)).
  { apply Rinv_le_contravar; [apply IZR_lt; reflexivity | lra]. }
  lra.
Qed.


(** ** Composite loss law (sim8.py) *)

(** With a nonzero bend radius [simulate_output_current] returns the finite
    current and total loss of the composite law (the noise scale
    [noise_std * I_out] is positive, so numpy accepts it). *)
Lemma sim8_output_fin (k : ftype) (L r t att base ideal n z : R) :
  r <> 0 ->
  Sim8.simulate_output_current k L r t att base ideal n z =
  Done (Fin (Sim8.I_in * db_to_ratio (att * L + n * (base * (ideal / r) * (Sim8.bend_angle / 90.0))
               + Sim8.temp_coefficient * Rabs (t - Sim8.room_temperature) * L) +
             (0 + Sim8.noise_std * (Sim8.I_in * db_to_ratio (att * L + n * (base * (ideal / r)
               * (Sim8.bend_angle / 90.0)) + Sim8.temp_coefficient * Rabs (t - Sim8.room_temperature) * L))
               * z)),
        Fin (att * L + n * (base * (ideal / r) * (Sim8.bend_angle / 90.0))
             + Sim8.temp_coefficient * Rabs (t - Sim8.room_temperature) * L)).
Proof.
  intro Hr. unfold Sim8.simulate_output_current, Sim8.bending_loss.
  rewrite div_nonzero by exact Hr.
  cbn [bind fmul fadd db_to_ratio_f]. unfold np_normal. cbn [fmul_signbit].
  rewrite mul_signbit_nonneg.
  - reflexivity.
  - unfold Sim8.noise_std. lra.
  - unfold Sim8.I_in. left. apply Rmult_lt_0_compat; [lra | apply exp_pos].
Qed.

(** C1: for the G.652D catalog entry, 10 km of fibre, bend radius 5 cm,
    5 turns and ambient temperature 25 °C (the reference), the bending term
    is 0.5 dB, the attenuation 2.0 dB, the temperature term 0, and the total
    loss returned by [simulate_output_current] is exactly 2.5 dB, whatever
    the noise sample. *)
Theorem g652d_scenario_total_loss : forall z : R,
  match Sim8.lookup "G.652D" Sim8.fiber_types with
  | Some p =>
    Sim8.attenuation_coeff p * 10 = 2.0 /\
    match Sim8.bending_loss Python_float (Sim8.base_bending_loss p) (Sim8.ideal_bend_radius p)
            5.0 Sim8.bend_angle with
    | Done (Fin l) => 5 * l = 0.5
    | _ => False
    end /\
    Sim8.temp_coefficient * Rabs (25 - Sim8.room_temperature) * 10 = 0 /\
    match Sim8.simulate_output_current Python_float 10 5.0 25 (Sim8.attenuation_coeff p)
            (Sim8.base_bending_loss p) (Sim8.ideal_bend_radius p) 5 z with
    | Done (_, Fin l) => l = 2.5
    | _ => False
    end
  | None => False
  end.
Proof.
  intro z. cbn -[Rabs Rdiv Rmult Rplus Rminus IZR Q2R Sim8.bending_loss
                 Sim8.simulate_output_current].
  rewrite sim8_output_fin by lra.
  unfold Sim8.bending_loss. rewrite div_nonzero by lra. cbn [bind fmul].
  unfold Sim8.bend_angle, Sim8.temp_coefficient, Sim8.room_temperature.
  replace (25 - 25.0) with 0 by lra. rewrite Rabs_R0.
  repeat split; lra.
Qed.

(** C10: the total loss returned by [simulate_output_current] (sim8.py and
    sim2.py) does not depend on the measurement-noise sample: noise only
    perturbs the output current, and whether numpy accepts the noise scale
    does not depend on the sample either. *)
Theorem total_loss_noise_independent :
  (forall k L r t att base ideal n z1 z2,
     omap snd (Sim8.simulate_output_current k L r t att base ideal n z1) =
     omap snd (Sim8.simulate_output_current k L r t att base ideal n z2)) /\
  (forall L r t nstd z1 z2,
     omap snd (Sim2.simulate_output_current L r t nstd z1) =
     omap snd (Sim2.simulate_output_current L r t nstd z2)).
Proof.
  split; intros.
  - unfold Sim8.simulate_output_current.
    destruct (Sim8.bending_loss k base ideal r Sim8.bend_angle); cbn [bind omap]; [| reflexivity ..].
    unfold np_normal. destruct (fmul_signbit _ _); reflexivity.
  - unfold Sim2.simulate_output_current.
    destruct (Sim2.bending_loss r Sim2.bend_angle); cbn [bind omap]; [| reflexivity ..].
    unfold np_normal_R. destruct (mul_signbit _ _); reflexivity.
Qed.

(** ** Bending-loss models (sim8.py, sim12.py, sim13.py) *)

Lemma inverse_radius_decreasing (base ideal angle R1 R2 : R) :
  0 < base -> 0 < ideal -> 0 < angle -> 0 < R1 -> R1 < R2 ->
  base * (ideal / R2) * (angle / 90.0) < base * (ideal / R1) * (angle / 90.0).
Proof.
  intros Hb Hi Ha H1 H12.
  assert (Hinv : / R2 < / R1) by (apply Rinv_lt_contravar; nra).
  assert (Hq : ideal / R2 < ideal / R1).
  { unfold Rdiv. apply Rmult_lt_compat_l; assumption. }
  apply Rmult_lt_compat_r; [lra |].
  apply Rmult_lt_compat_l; assumption.
Qed.

Lemma pow_3_2_pos (c : R) :
  0 < c -> Sim13.pow_3_2 c = Sim13.PyReal (Fin (Rpower c (3/2))) /\ 0 < Rpower c (3/2).
Proof.
  intro Hc. unfold Sim13.pow_3_2.
  destruct (Rlt_dec c 0) as [Hn | _]; [lra |].
  destruct (Req_EM_T c 0) as [Hz | _]; [lra |].
  split; [reflexivity | apply exp_pos].
Qed.

(** The physical model gives a float whenever [n1^2 > n2^2] and neither
    the core radius nor the wavelength is zero. *)
Lemma physical_bending_loss_real (a n1 n2 lam Rcm : R) :
  a <> 0 -> lam <> 0 -> 0 < n1 ^ 2 - n2 ^ 2 ->
  Sim13.bending_loss a n1 n2 lam Rcm =
  Done (Sim13.PyReal (fmul (Fin (0.5 * (PI * a * n1 / lam) ^ 2))
          (np_exp (- (4/3) * (Rcm * 0.01 / a) * Rpower (n1 ^ 2 - n2 ^ 2) (3/2))))).
Proof.
  intros Ha Hl Hc.
  destruct (pow_3_2_pos _ Hc) as [Hp _].
  unfold Sim13.bending_loss.
  rewrite py_div_nonzero by exact Hl. cbn [bind].
  rewrite py_div_nonzero by exact Ha. cbn [bind].
  rewrite Hp. reflexivity.
Qed.

Lemma factor_pos (a n1 lam : R) : 0 < a -> 0 < n1 -> 0 < lam -> 0 < 0.5 * (PI * a * n1 / lam) ^ 2.
Proof.
  intros Ha Hn Hl. pose proof PI_RGT_0.
  apply Rmult_lt_0_compat; [lra |]. apply pow_lt. unfold Rdiv.
  apply Rmult_lt_0_compat; [| apply Rinv_0_lt_compat; assumption].
  apply Rmult_lt_0_compat; [apply Rmult_lt_0_compat |]; lra.
Qed.

(** The OM1 fibre of sim13.py ([a = 31.25 um], [n1 = 1.50], [n2 = 1.46],
    850 nm): from a bend radius of 50 cm on, the exponent is below [-800]
    and [np.exp] underflows, so the bending loss is exactly [0.0]. *)
Lemma om1_bending_loss_underflow (Rcm : R) :
  50 <= Rcm ->
  Sim13.bending_loss 31.25e-6 1.50 1.46 850e-9 Rcm = Done (Sim13.PyReal (Fin 0)).
Proof.
  intro HR.
  assert (Hc : 1.50 ^ 2 - 1.46 ^ 2 = 0.1184) by (cbn; lra).
  rewrite physical_bending_loss_real by (try rewrite Hc; lra).
  rewrite Hc, rpower_3_2 by lra.
  assert (Hs : 0.34 <= sqrt 0.1184).
  { replace 0.34 with (sqrt (0.34 ^ 2)) by (apply sqrt_pow2; lra).
    apply sqrt_le_1_alt. cbn. lra. }
  rewrite np_exp_underflow.
  - cbn [fmul]. rewrite Rmult_0_r. reflexivity.
  - apply exp_underflow.
    replace (Rcm * 0.01 / 31.25e-6) with (320 * Rcm) by (field_simplify; lra).
    nra.
Qed.

(** C2 (as the code has it): the exponential models are not strictly
    decreasing in floats.  For the G.652D parameters of sim12.py
    ([A = 0.2], [B = 1.5], [MFD = 9.2]) the Marcuse loss at 50 m and at
    60 m, and for the OM1 fibre of sim13.py the physical loss at 50 cm and
    at 60 cm, are all exactly [0.0]: [np.exp] underflows. *)
Theorem exponential_bending_loss_underflow :
  Sim12.marcuse_bending_loss 0.2 1.5 5000 9.2 = Fin 0 /\
  Sim12.marcuse_bending_loss 0.2 1.5 6000 9.2 = Fin 0 /\
  Sim13.bending_loss 31.25e-6 1.50 1.46 850e-9 50 = Done (Sim13.PyReal (Fin 0)) /\
  Sim13.bending_loss 31.25e-6 1.50 1.46 850e-9 60 = Done (Sim13.PyReal (Fin 0)).
Proof.
  unfold Sim12.marcuse_bending_loss.
  rewrite !np_div_nonzero by lra. cbn [fmul np_exp_f].
  rewrite !np_exp_underflow by (apply exp_underflow; lra).
  cbn [fmul]. rewrite Rmult_0_r.
  repeat split; try reflexivity; apply om1_bending_loss_underflow; lra.
Qed.

(** C2 (amended): for bend radii [0 < R1 < R2], the empirical loss (sim8.py
    with either kind of radius, and sim12.py) is a float strictly greater at
    [R1] than at [R2] when the base loss, the ideal radius and the bend angle
    are positive.  The Marcuse loss of sim12.py ([A], [B], [MFD] positive)
    and the physical loss of sim13.py (core radius and wavelength positive,
    [n1 > n2 > 0]) are floats, at [R2] at most their value at [R1], and
    strictly below it as long as [np.exp] does not underflow at [R2]. *)
Theorem bending_loss_decreasing_in_radius (R1 R2 : R) :
  0 < R1 -> R1 < R2 ->
  (forall k base ideal angle, 0 < base -> 0 < ideal -> 0 < angle ->
     exists l1 l2, Sim8.bending_loss k base ideal R1 angle = Done (Fin l1) /\
       Sim8.bending_loss k base ideal R2 angle = Done (Fin l2) /\ l2 < l1) /\
  (forall base ideal angle, 0 < base -> 0 < ideal -> 0 < angle ->
     exists l1 l2, Sim12.empirical_bending_loss base ideal R1 angle = Fin l1 /\
       Sim12.empirical_bending_loss base ideal R2 angle = Fin l2 /\ l2 < l1) /\
  (forall A B MFD, 0 < A -> 0 < B -> 0 < MFD ->
     exists l1 l2, Sim12.marcuse_bending_loss A B R1 MFD = Fin l1 /\
       Sim12.marcuse_bending_loss A B R2 MFD = Fin l2 /\ l2 <= l1 /\
       (exp_tiny < exp (- B * (R2 / MFD)) -> l2 < l1)) /\
  (forall a n1 n2 lam, 0 < a -> 0 < lam -> 0 < n2 -> n2 < n1 ->
     exists l1 l2, Sim13.bending_loss a n1 n2 lam R1 = Done (Sim13.PyReal (Fin l1)) /\
       Sim13.bending_loss a n1 n2 lam R2 = Done (Sim13.PyReal (Fin l2)) /\ l2 <= l1 /\
       (exp_tiny < exp (- (4/3) * (R2 * 0.01 / a) * Rpower (n1 ^ 2 - n2 ^ 2) (3/2)) ->
        l2 < l1)).
Proof.
  intros H1 H12. split; [| split; [| split]].
  - intros k base ideal angle Hb Hi Ha.
    unfold Sim8.bending_loss. rewrite !div_nonzero by lra. cbn [bind fmul].
    do 2 eexists. split; [reflexivity |]. split; [reflexivity |].
    apply inverse_radius_decreasing; assumption.
  - intros base ideal angle Hb Hi Ha.
    unfold Sim12.empirical_bending_loss. rewrite !np_div_nonzero by lra. cbn [fmul].
    do 2 eexists. split; [reflexivity |]. split; [reflexivity |].
    apply inverse_radius_decreasing; assumption.
  - intros A B MFD HA HB HM. unfold Sim12.marcuse_bending_loss.
    rewrite !np_div_nonzero by lra. cbn [fmul np_exp_f].
    assert (Hq : R1 / MFD < R2 / MFD).
    { unfold Rdiv. apply Rmult_lt_compat_r; [apply Rinv_0_lt_compat |]; assumption. }
    assert (Hq0 : 0 < R1 / MFD) by (unfold Rdiv; apply Rmult_lt_0_compat;
                                     [| apply Rinv_0_lt_compat]; assumption).
    destruct (np_exp_nonpos_le (- B * (R1 / MFD)) (- B * (R2 / MFD)))
      as (e1 & e2 & E1 & E2 & He & _ & Hs); [nra | nra |].
    rewrite E1, E2. cbn [fmul].
    exists (A * e1), (A * e2). split; [reflexivity |]. split; [reflexivity |].
    split; [nra |]. intro Ht. specialize (Hs ltac:(nra) Ht). nra.
  - intros a n1 n2 lam Ha Hl H2 H21.
    assert (Hc : 0 < n1 ^ 2 - n2 ^ 2) by nra.
    rewrite !physical_bending_loss_real by lra.
    destruct (pow_3_2_pos _ Hc) as [_ Hp].
    pose proof (factor_pos a n1 lam Ha ltac:(lra) Hl) as Hf.
    assert (Hr : R1 * 0.01 / a < R2 * 0.01 / a).
    { unfold Rdiv. apply Rmult_lt_compat_r; [apply Rinv_0_lt_compat; assumption | lra]. }
    assert (Hr0 : 0 < R1 * 0.01 / a).
    { unfold Rdiv. apply Rmult_lt_0_compat; [lra | apply Rinv_0_lt_compat; assumption]. }
    destruct (np_exp_nonpos_le (- (4/3) * (R1 * 0.01 / a) * Rpower (n1 ^ 2 - n2 ^ 2) (3/2))
                (- (4/3) * (R2 * 0.01 / a) * Rpower (n1 ^ 2 - n2 ^ 2) (3/2)))
      as (e1 & e2 & E1 & E2 & He & _ & Hs); [nra | nra |].
    rewrite E1, E2. cbn [fmul].
    eexists; eexists. split; [reflexivity |]. split; [reflexivity |].
    split; [nra |]. intro Ht. specialize (Hs ltac:(nra) Ht). nra.
Qed.

(** Witness of C2 at the radii 1 cm and 2 cm. *)
Lemma bending_loss_decreasing_in_radius_witness :
  (forall k base ideal angle, 0 < base -> 0 < ideal -> 0 < angle ->
     exists l1 l2, Sim8.bending_loss k base ideal 1 angle = Done (Fin l1) /\
       Sim8.bending_loss k base ideal 2 angle = Done (Fin l2) /\ l2 < l1) /\
  (forall base ideal angle, 0 < base -> 0 < ideal -> 0 < angle ->
     exists l1 l2, Sim12.empirical_bending_loss base ideal 1 angle = Fin l1 /\
       Sim12.empirical_bending_loss base ideal 2 angle = Fin l2 /\ l2 < l1) /\
  (forall A B MFD, 0 < A -> 0 < B -> 0 < MFD ->
     exists l1 l2, Sim12.marcuse_bending_loss A B 1 MFD = Fin l1 /\
       Sim12.marcuse_bending_loss A B 2 MFD = Fin l2 /\ l2 <= l1 /\
       (exp_tiny < exp (- B * (2 / MFD)) -> l2 < l1)) /\
  (forall a n1 n2 lam, 0 < a -> 0 < lam -> 0 < n2 -> n2 < n1 ->
     exists l1 l2, Sim13.bending_loss a n1 n2 lam 1 = Done (Sim13.PyReal (Fin l1)) /\
       Sim13.bending_loss a n1 n2 lam 2 = Done (Sim13.PyReal (Fin l2)) /\ l2 <= l1 /\
       (exp_tiny < exp (- (4/3) * (2 * 0.01 / a) * Rpower (n1 ^ 2 - n2 ^ 2) (3/2)) ->
        l2 < l1)).
Proof. apply (bending_loss_decreasing_in_radius 1 2); lra. Defined.

(** ** Sweeps of sim8.py *)

Lemma catalog_positive (name : string) (p : Sim8.fiber_type) :
  Sim8.lookup name Sim8.fiber_types = Some p ->
  0 < Sim8.base_bending_loss p /\ 0 < Sim8.ideal_bend_radius p.
Proof.
  intro H. unfold Sim8.fiber_types in H.
  repeat (cbn [Sim8.lookup] in H;
          destruct (String.eqb _ name); [injection H as <-; cbn; lra |]).
  discriminate H.
Qed.

Lemma map_mapi_from {A B C : Type} (f : nat -> A -> B) (g : B -> C) (h : A -> C) :
  (forall i x, g (f i x) = h x) ->
  forall l k, map g (map (fun p => f (fst p) (snd p)) (combine (seq k (List.length l)) l))
              = map h l.
Proof.
  intros Hfg l. induction l as [| x l IH]; intro k; [reflexivity |].
  cbn. rewrite Hfg. f_equal. apply IH.
Qed.

Lemma map_mapi {A B C : Type} (f : nat -> A -> B) (g : B -> C) (h : A -> C) (l : list A) :
  (forall i x, g (f i x) = h x) -> map g (Sim8.mapi f l) = map h l.
Proof. intro Hfg. apply (map_mapi_from f g h Hfg l 0). Qed.

Lemma consecutive_strictly_increasing (h : Z -> R) (a : Z) :
  (forall n, h n < h (n + 1)%Z) ->
  forall n s, strictly_increasing (map (fun k => h (a + Z.of_nat k)%Z) (seq s n)).
Proof.
  intros Hh n. induction n as [| n IH]; intro s; [exact I |].
  destruct n as [| n]; [exact I |].
  specialize (IH (S s)).
  change (seq s (S (S n))) with (s :: seq (S s) (S n)).
  cbn [map]. change (strictly_increasing (h (a + Z.of_nat s)%Z ::
    map (fun k => h (a + Z.of_nat k)%Z) (seq (S s) (S n)))).
  cbn [seq map strictly_increasing] in IH |- *. split; [| exact IH].
  replace (a + Z.of_nat (S s))%Z with (a + Z.of_nat s + 1)%Z by lia.
  apply Hh.
Qed.

Lemma mapi_length {A B : Type} (f : nat -> A -> B) (l : list A) :
  List.length (Sim8.mapi f l) = List.length l.
Proof.
  unfold Sim8.mapi. rewrite length_map, length_combine, length_seq. apply Nat.min_id.
Qed.

Lemma linspace_length (start stop : R) (num : nat) :
  List.length (Sim8.linspace start stop num) = num.
Proof. unfold Sim8.linspace. rewrite length_map. apply length_seq. Qed.

Lemma loss_per_bend_pos (base ideal r : R) :
  0 < base -> 0 < ideal -> 0 < r -> 0 < base * (ideal / r) * (Sim8.bend_angle / 90.0).
Proof.
  intros Hb Hi Hr. unfold Sim8.bend_angle.
  apply Rmult_lt_0_compat; [apply Rmult_lt_0_compat |].
  - assumption.
  - unfold Rdiv. apply Rmult_lt_0_compat; [| apply Rinv_0_lt_compat]; assumption.
  - lra.
Qed.

(** A loop whose first iteration raises raises the same exception. *)
Lemma collect_mapi_raises {A B : Type} (f : nat -> A -> outcome B) (l : list A) (e : string) :
  (forall i x, f i x = Raises e) -> l <> [] -> collect (Sim8.mapi f l) = Raises e.
Proof.
  intros Hf Hl. destruct l as [| x l]; [contradiction |].
  unfold Sim8.mapi. cbn [List.length seq combine map fst snd]. apply collect_raises, Hf.
Qed.

(** A Python-float bend radius of zero raises [ZeroDivisionError]. *)
Lemma sim8_output_zero_radius (L t att base ideal n z : R) :
  Sim8.simulate_output_current Python_float L 0 t att base ideal n z = Raises "ZeroDivisionError".
Proof.
  unfold Sim8.simulate_output_current, Sim8.bending_loss. cbn [div].
  rewrite py_div_zero. reflexivity.
Qed.

(** The length sweep with a nonzero radius: every point succeeds. *)
Lemma sim8_length_sweep_form (fiber : string) (p : Sim8.fiber_type) (ls le t r : R)
    (draws : nat -> R) :
  Sim8.lookup fiber Sim8.fiber_types = Some p -> r <> 0 ->
  Sim8.run_length_simulation fiber (Some ls) (Some le) (Some t) (Some r) draws =
  let res := Sim8.mapi (fun i L =>
    (Fin (Sim8.I_in * db_to_ratio (Sim8.attenuation_coeff p * L + Sim8.default_turns *
            (Sim8.base_bending_loss p * (Sim8.ideal_bend_radius p / r) * (Sim8.bend_angle / 90.0))
            + Sim8.temp_coefficient * Rabs (t - Sim8.room_temperature) * L) +
          (0 + Sim8.noise_std * (Sim8.I_in * db_to_ratio (Sim8.attenuation_coeff p * L +
            Sim8.default_turns * (Sim8.base_bending_loss p * (Sim8.ideal_bend_radius p / r) *
            (Sim8.bend_angle / 90.0)) + Sim8.temp_coefficient * Rabs (t - Sim8.room_temperature) * L))
            * draws i)),
     Fin (Sim8.attenuation_coeff p * L + Sim8.default_turns *
            (Sim8.base_bending_loss p * (Sim8.ideal_bend_radius p / r) * (Sim8.bend_angle / 90.0))
            + Sim8.temp_coefficient * Rabs (t - Sim8.room_temperature) * L)))
    (Sim8.linspace ls le 100) in
  Done (Sim8.linspace ls le 100, map fst res, map snd res).
Proof.
  intros Hlook Hr. unfold Sim8.run_length_simulation. rewrite Hlook. cbv zeta.
  rewrite collect_mapi_done with (g := fun i L =>
    (Fin (Sim8.I_in * db_to_ratio (Sim8.attenuation_coeff p * L + Sim8.default_turns *
            (Sim8.base_bending_loss p * (Sim8.ideal_bend_radius p / r) * (Sim8.bend_angle / 90.0))
            + Sim8.temp_coefficient * Rabs (t - Sim8.room_temperature) * L) +
          (0 + Sim8.noise_std * (Sim8.I_in * db_to_ratio (Sim8.attenuation_coeff p * L +
            Sim8.default_turns * (Sim8.base_bending_loss p * (Sim8.ideal_bend_radius p / r) *
            (Sim8.bend_angle / 90.0)) + Sim8.temp_coefficient * Rabs (t - Sim8.room_temperature) * L))
            * draws i)),
     Fin (Sim8.attenuation_coeff p * L + Sim8.default_turns *
            (Sim8.base_bending_loss p * (Sim8.ideal_bend_radius p / r) * (Sim8.bend_angle / 90.0))
            + Sim8.temp_coefficient * Rabs (t - Sim8.room_temperature) * L))).
  - reflexivity.
  - intros i L _. apply sim8_output_fin. exact Hr.
Qed.

(** C3: a turn-count sweep over [start, end] with [1 <= start <= end], a
    catalog fibre and a positive bend radius returns the turn counts
    [start, start + 1, ..., end] in ascending order ([end - start + 1]
    samples), one output current and one total loss per turn count, and the
    total losses are floats strictly increasing with the turn count. *)
Theorem turns_sweep_samples (fiber : string) (p : Sim8.fiber_type) (L r t : R)
    (a b : Z) (draws : nat -> R) :
  Sim8.lookup fiber Sim8.fiber_types = Some p -> (1 <= a <= b)%Z -> 0 < r ->
  match Sim8.run_turns_simulation fiber (Some L) (Some a) (Some b) (Some r) (Some t) draws with
  | Done (ns, currents, losses) =>
    ns = map (fun k => (a + Z.of_nat k)%Z) (seq 0 (Z.to_nat (b - a + 1))) /\
    List.length ns = Z.to_nat (b - a + 1) /\
    List.length currents = List.length ns /\
    List.length losses = List.length ns /\
    exists ls, losses = map Fin ls /\ strictly_increasing ls
  | _ => False
  end.
Proof.
  intros Hlook Hab Hr.
  destruct (catalog_positive _ _ Hlook) as [Hb Hi].
  pose proof (loss_per_bend_pos _ _ r Hb Hi Hr) as Hlpb.
  unfold Sim8.run_turns_simulation. rewrite Hlook. cbv zeta.
  set (T := fun n : R => Sim8.attenuation_coeff p * L + n *
            (Sim8.base_bending_loss p * (Sim8.ideal_bend_radius p / r) * (Sim8.bend_angle / 90.0))
            + Sim8.temp_coefficient * Rabs (t - Sim8.room_temperature) * L).
  rewrite collect_mapi_done with (g := fun i n =>
    (Fin (Sim8.I_in * db_to_ratio (T (IZR n)) +
          (0 + Sim8.noise_std * (Sim8.I_in * db_to_ratio (T (IZR n))) * draws i)),
     Fin (T (IZR n))))
    by (intros i n _; unfold T; apply sim8_output_fin; lra).
  cbn [bind].
  assert (Har : Sim8.arange a (b + 1)%Z =
                map (fun k => (a + Z.of_nat k)%Z) (seq 0 (Z.to_nat (b - a + 1)))).
  { unfold Sim8.arange. replace (b + 1 - a)%Z with (b - a + 1)%Z by lia. reflexivity. }
  rewrite Har.
  remember (map (fun k => (a + Z.of_nat k)%Z) (seq 0 (Z.to_nat (b - a + 1)))) as ns eqn:Ens.
  assert (Hlen : List.length ns = Z.to_nat (b - a + 1))
    by (rewrite Ens, length_map, length_seq; reflexivity).
  destruct ns as [| n0 rest]; [cbn in Hlen; lia |].
  split; [reflexivity |]. split; [exact Hlen |].
  split; [rewrite length_map; apply mapi_length |].
  split; [rewrite length_map; apply mapi_length |].
  exists (map (fun n => T (IZR n)) (n0 :: rest)).
  split.
  - rewrite (map_mapi _ snd (fun n => Fin (T (IZR n)))) by (intros; reflexivity).
    rewrite map_map. reflexivity.
  - rewrite Ens, map_map. apply (consecutive_strictly_increasing (fun n => T (IZR n)) a).
    intro n. unfold T. rewrite plus_IZR. nra.
Qed.

(** Witness of C3: the sweep over [1, 20] turns with the G.652D fibre. *)
Lemma turns_sweep_samples_witness :
  match Sim8.run_turns_simulation "G.652D" (Some 10) (Some 1%Z) (Some 20%Z) (Some 5.0)
          (Some 25) (fun _ => 0) with
  | Done (ns, currents, losses) =>
    ns = map (fun k => (1 + Z.of_nat k)%Z) (seq 0 (Z.to_nat (20 - 1 + 1))) /\
    List.length ns = Z.to_nat (20 - 1 + 1) /\
    List.length currents = List.length ns /\
    List.length losses = List.length ns /\
    exists ls, losses = map Fin ls /\ strictly_increasing ls
  | _ => False
  end.
Proof.
  apply (turns_sweep_samples "G.652D" {| Sim8.attenuation_coeff := 0.20;
     Sim8.base_bending_loss := 0.10; Sim8.ideal_bend_radius := 5.0;
     Sim8.description := "Standard Single Mode Fiber (ITU-T G.652D) with typical attenuation 0.20 dB/km at 1550 nm." |}).
  - reflexivity.
  - lia.
  - lra.
Defined.

(** ** Hybrid step simulation (sim4.py) *)

(** C4 (as the code has it): the event loss is drawn from a Gaussian of mean
    0.2 dB and standard deviation 0.05 dB, so a sample 5 standard deviations
    below the mean is a gain of 0.05 dB.  With the script's coefficients,
    5 km in 2 steps and the event on the second step, the cumulative-loss
    trace decreases at that step. *)
Theorem hybrid_trace_can_decrease :
  match Sim4.hybrid_simulation 1000.0 5.0 2 1 30.0 25.0 0.00385 0.0002 0.02
          [1%nat] (fun _ => -5) 0 with
  | Done (_, profile, _) => ~ Sim4.nondecreasing profile
  | _ => False
  end.
Proof.
  unfold Sim4.hybrid_simulation. cbn [Nat.eqb Nat.ltb Nat.leb].
  unfold np_normal_R.
  rewrite mul_signbit_nonneg
    by (first [lra | left; apply Rmult_lt_0_compat; [lra | apply db_to_ratio_pos]]).
  cbn -[Rabs Rdiv Rmult Rplus Rminus Ropp IZR INR db_to_ratio].
  unfold normal. rewrite Rabs_pos_eq by lra. cbn [INR]. intros [H _]. lra.
Qed.

Lemma nondecreasing_snoc (l : list R) (y : R) :
  Sim4.nondecreasing l -> (forall x, In x l -> x <= y) -> Sim4.nondecreasing (l ++ [y]).
Proof.
  induction l as [| x l IH]; intros Hl Hle; [exact I |].
  destruct l as [| x' l].
  - cbn. split; [apply Hle; left; reflexivity | exact I].
  - destruct Hl as [Hxx' Hl]. cbn. split; [exact Hxx' |].
    apply IH; [exact Hl |]. intros w Hw. apply Hle. right. exact Hw.
Qed.

(** Loop invariant: the trace is non-decreasing and bounded by the running
    cumulative loss. *)
Definition trace_ok (st : Sim4.state) : Prop :=
  Sim4.nondecreasing (Sim4.loss_profile st) /\
  forall x, In x (Sim4.loss_profile st) -> x <= Sim4.total_loss_dB st.

Lemma step_body_trace_ok dz amb room att tc idx draws st step :
  0 <= att * dz + tc * Rabs (amb - room) * dz ->
  (forall k, 0 <= normal 0.2 0.05 (draws k)) ->
  trace_ok st -> trace_ok (Sim4.step_body dz amb room att tc idx draws st step).
Proof.
  intros Hd Hev [Hnd Hle]. unfold Sim4.step_body.
  set (t := Sim4.total_loss_dB st + (att * dz + tc * Rabs (amb - room) * dz)).
  assert (Ht : Sim4.total_loss_dB st <= t) by (unfold t; lra).
  unfold trace_ok.
  destruct (existsb (Nat.eqb step) idx);
    cbn [Sim4.total_loss_dB Sim4.loss_profile Sim4.events_seen].
  - specialize (Hev (Sim4.events_seen st)). unfold normal in *.
    split.
    + apply nondecreasing_snoc; [exact Hnd |].
      intros x Hx. specialize (Hle x Hx). lra.
    + intros x Hx. apply in_app_or in Hx. destruct Hx as [Hx | [Hx | []]].
      * specialize (Hle x Hx). lra.
      * subst x. lra.
  - split.
    + apply nondecreasing_snoc; [exact Hnd |].
      intros x Hx. specialize (Hle x Hx). lra.
    + intros x Hx. apply in_app_or in Hx. destruct Hx as [Hx | [Hx | []]].
      * specialize (Hle x Hx). lra.
      * subst x. lra.
Qed.

Lemma fold_trace_ok dz amb room att tc idx draws (steps : list nat) (st : Sim4.state) :
  0 <= att * dz + tc * Rabs (amb - room) * dz ->
  (forall k, 0 <= normal 0.2 0.05 (draws k)) ->
  trace_ok st ->
  trace_ok (fold_left (Sim4.step_body dz amb room att tc idx draws) steps st).
Proof.
  intros Hd Hev. revert st.
  induction steps as [| s steps IH]; intros st Hst; [exact Hst |].
  cbn. apply IH. apply step_body_trace_ok; assumption.
Qed.

(** C4 (amended): when the length and both loss coefficients are
    non-negative and every event loss drawn is non-negative (the standard
    normal sample is at least -4), the cumulative-loss trace returned by
    [hybrid_simulation] is non-decreasing, for every choice of event steps. *)
Theorem hybrid_trace_nondecreasing (I_in L : R) (num_steps num_events : nat)
    (amb room att tc nstd : R) (idx : list nat) (draws : nat -> R) (noise_z : R) :
  0 <= L -> 0 <= att -> 0 <= tc ->
  (forall k, 0 <= normal 0.2 0.05 (draws k)) ->
  match Sim4.hybrid_simulation I_in L num_steps num_events amb room att tc nstd
          idx draws noise_z with
  | Done (_, profile, _) => Sim4.nondecreasing profile
  | _ => True
  end.
Proof.
  intros HL Ha Ht Hev. unfold Sim4.hybrid_simulation.
  destruct (Nat.eqb num_steps 0) eqn:H0; [exact I |].
  destruct (Nat.ltb num_steps num_events); [exact I |].
  unfold np_normal_R. destruct (mul_signbit _ _); [exact I |]. cbn [bind].
  apply Nat.eqb_neq in H0.
  assert (Hdz : 0 <= L / INR num_steps).
  { unfold Rdiv. apply Rmult_le_pos; [exact HL |].
    apply Rlt_le, Rinv_0_lt_compat, lt_0_INR. lia. }
  pose proof (Rabs_pos (amb - room)).
  apply fold_trace_ok.
  - apply Rplus_le_le_0_compat.
    + apply Rmult_le_pos; assumption.
    + apply Rmult_le_pos; [apply Rmult_le_pos |]; assumption.
  - exact Hev.
  - split; [exact I | intros x []].
Qed.

(** Witness of C4 (amended), with the script's parameters on 4 steps. *)
Lemma hybrid_trace_nondecreasing_witness :
  match Sim4.hybrid_simulation 1000.0 5.0 4 2 30.0 25.0 0.00385 0.0002 0.02
          [0%nat; 2%nat] (fun _ => 1) 0 with
  | Done (_, profile, _) => Sim4.nondecreasing profile
  | _ => True
  end.
Proof.
  apply hybrid_trace_nondecreasing; [lra | lra | lra |].
  intro k. unfold normal. lra.
Defined.


(** ** Physical bending model without index check (sim13.py) *)







(** ** Sweep validation (sim8.py) *)

(** C6 (as the code has it): a length sweep from 10 km down to 1 km is not
    rejected: it returns 100 lengths, starting at 10 km. *)
Theorem length_sweep_reversed_range_accepted :
  match Sim8.run_length_simulation "G.652D" (Some 10) (Some 1) (Some 25) (Some 5.0)
          (fun _ => 0) with
  | Done (lengths, _, _) => List.length lengths = 100%nat /\ nth 0 lengths 0 = 10
  | _ => False
  end.
Proof.
  rewrite (sim8_length_sweep_form "G.652D" {| Sim8.attenuation_coeff := 0.20;
     Sim8.base_bending_loss := 0.10; Sim8.ideal_bend_radius := 5.0;
     Sim8.description := "Standard Single Mode Fiber (ITU-T G.652D) with typical attenuation 0.20 dB/km at 1550 nm." |})
    by (reflexivity || lra).
  cbv zeta. split; [apply linspace_length |].
  cbn. lra.
Qed.

(** C6 (amended): the sweeps check only that their entries parse.  For any
    parsed bounds (start > end and start <= 0 included) and a nonzero bend
    radius the length sweep of a catalog fibre returns the 100 points of
    [np.linspace(start, end, 100)], from start to end, with one output
    current and one total loss each; the only error of the length sweep
    comes from the radius: at a bend radius of 0 its first point raises
    [ZeroDivisionError].  A turn-count sweep with start > end iterates over
    an empty range and then raises [IndexError] when it reads the last turn
    count. *)
Theorem sweeps_unvalidated (fiber : string) (p : Sim8.fiber_type) :
  Sim8.lookup fiber Sim8.fiber_types = Some p ->
  (forall ls le t r draws, r <> 0 ->
     match Sim8.run_length_simulation fiber (Some ls) (Some le) (Some t) (Some r) draws with
     | Done (lengths, currents, losses) =>
       lengths = Sim8.linspace ls le 100 /\ List.length lengths = 100%nat /\
       nth 0 lengths 0 = ls /\ nth 99 lengths 0 = le /\
       List.length currents = 100%nat /\ List.length losses = 100%nat
     | _ => False
     end) /\
  (forall ls le t draws,
     Sim8.run_length_simulation fiber (Some ls) (Some le) (Some t) (Some 0) draws =
     Raises "ZeroDivisionError") /\
  (forall L a b r t draws, (b < a)%Z ->
     Sim8.run_turns_simulation fiber (Some L) (Some a) (Some b) (Some r) (Some t) draws =
     Raises "IndexError").
Proof.
  intro Hlook. split; [| split].
  - intros ls le t r draws Hr. rewrite (sim8_length_sweep_form fiber p) by assumption.
    cbv zeta.
    split; [reflexivity |]. split; [apply linspace_length |].
    split; [cbn; lra |]. split; [reflexivity |].
    split; rewrite length_map, mapi_length; apply linspace_length.
  - intros ls le t draws. unfold Sim8.run_length_simulation. rewrite Hlook. cbv zeta.
    rewrite collect_mapi_raises with (e := "ZeroDivisionError"%string).
    + reflexivity.
    + intros i L. apply sim8_output_zero_radius.
    + intro H. apply (f_equal (@List.length R)) in H.
      rewrite linspace_length in H. discriminate H.
  - intros L a b r t draws Hba. unfold Sim8.run_turns_simulation. rewrite Hlook.
    unfold Sim8.arange. replace (Z.to_nat (b + 1 - a)) with 0%nat by lia.
    reflexivity.
Qed.

(** Witness of C6 (amended) for the G.652D fibre. *)
Lemma sweeps_unvalidated_witness :
  match Sim8.run_length_simulation "G.652D" (Some 10) (Some 1) (Some 25) (Some 5.0)
          (fun _ => 0) with
  | Done (lengths, currents, losses) =>
    lengths = Sim8.linspace 10 1 100 /\ List.length lengths = 100%nat /\
    nth 0 lengths 0 = 10 /\ nth 99 lengths 0 = 1 /\
    List.length currents = 100%nat /\ List.length losses = 100%nat
  | _ => False
  end.
Proof.
  apply (proj1 (sweeps_unvalidated "G.652D" {| Sim8.attenuation_coeff := 0.20;
     Sim8.base_bending_loss := 0.10; Sim8.ideal_bend_radius := 5.0;
     Sim8.description := "Standard Single Mode Fiber (ITU-T G.652D) with typical attenuation 0.20 dB/km at 1550 nm." |}
     eq_refl)).
  lra.
Defined.

(** ** Numerical aperture (sim1.py) *)

(** C7 (as the code has it): a spot diameter of 0 is not rejected; the
    calculator returns an angle of 0 degrees and an aperture of 0. *)
Theorem numerical_aperture_zero_diameter :
  Sim1.calculate_numerical_aperture 0 100.0 = Done (0, 0).
Proof.
  unfold Sim1.calculate_numerical_aperture.
  destruct (Req_EM_T (2 * 100.0) 0) as [H | _]; [lra |].
  cbv zeta. unfold Sim1.degrees.
  replace (0 / (2 * 100.0)) with 0 by (unfold Rdiv; ring).
  rewrite atan_0, sin_0. f_equal. f_equal. unfold Rdiv. ring.
Qed.

(** C7 (amended): the calculator validates nothing.  For every diameter [D]
    (zero and negative included) and every nonzero distance [b] it returns
    theta = arctan(D / (2 b)) in degrees and NA = sin theta; for [b = 0] the
    float division raises [ZeroDivisionError]. *)
Theorem numerical_aperture_unvalidated (D b : R) :
  (b <> 0 ->
   Sim1.calculate_numerical_aperture D b =
   Done (atan (D / (2 * b)) * 180 / PI, sin (atan (D / (2 * b))))) /\
  (b = 0 -> Sim1.calculate_numerical_aperture D b = Raises "ZeroDivisionError").
Proof.
  unfold Sim1.calculate_numerical_aperture, Sim1.degrees. split.
  - intro Hb. destruct (Req_EM_T (2 * b) 0) as [H | _]; [lra | reflexivity].
  - intro Hb. destruct (Req_EM_T (2 * b) 0) as [_ | H]; [reflexivity | lra].
Qed.

(** Witness of C7 (amended) on the script's example D = 1.15 mm, b = 100 mm. *)
Lemma numerical_aperture_unvalidated_witness :
  Sim1.calculate_numerical_aperture 1.15 100.0 =
  Done (atan (1.15 / (2 * 100.0)) * 180 / PI, sin (atan (1.15 / (2 * 100.0)))).
Proof. apply (numerical_aperture_unvalidated 1.15 100.0). lra. Defined.

(** ** Noise model (sim13.py) *)

(** [simulate_total_loss] when the bending loss is a finite float [l]: the
    total is [temperature term + (attenuation + n * l)], and numpy checks
    the sign bit of the scale [noise_std * total]. *)
Lemma sim13_total_loss_real (L Rcm t att a n1 n2 lam n z l : R) :
  Sim13.bending_loss a n1 n2 lam Rcm = Done (Sim13.PyReal (Fin l)) ->
  Sim13.simulate_total_loss L Rcm t att a n1 n2 lam n z =
  if mul_signbit Sim13.noise_std
       (Sim13.temp_coefficient * Rabs (t - Sim13.room_temperature) * L + (att * L + n * l))
  then Raises "ValueError"
  else Done (Sim13.PyReal (Fin
         (Sim13.temp_coefficient * Rabs (t - Sim13.room_temperature) * L + (att * L + n * l) +
          (0 + Sim13.noise_std *
               (Sim13.temp_coefficient * Rabs (t - Sim13.room_temperature) * L + (att * L + n * l))
               * z)))).
Proof.
  intro Hl. unfold Sim13.simulate_total_loss. rewrite Hl.
  cbn [bind Sim13.scale Sim13.add fmul fadd]. unfold np_normal. cbn [fmul_signbit].
  destruct (mul_signbit _ _); reflexivity.
Qed.

(** With [noise_std = 0.00] the scale [0.0 * total] carries the sign of the
    total: the noise is [0] for a non-negative total, and numpy refuses the
    scale [-0.0] of a negative one. *)
Lemma sim13_zero_noise (L Rcm t att a n1 n2 lam n z l : R) :
  Sim13.bending_loss a n1 n2 lam Rcm = Done (Sim13.PyReal (Fin l)) ->
  (0 <= att * L + n * l + Sim13.temp_coefficient * Rabs (t - Sim13.room_temperature) * L ->
   Sim13.simulate_total_loss L Rcm t att a n1 n2 lam n z =
   Done (Sim13.PyReal (Fin (att * L + n * l +
           Sim13.temp_coefficient * Rabs (t - Sim13.room_temperature) * L)))) /\
  (att * L + n * l + Sim13.temp_coefficient * Rabs (t - Sim13.room_temperature) * L < 0 ->
   Sim13.simulate_total_loss L Rcm t att a n1 n2 lam n z = Raises "ValueError").
Proof.
  intro Hl. rewrite (sim13_total_loss_real _ _ _ _ _ _ _ _ _ _ _ Hl).
  unfold Sim13.noise_std. replace 0.00 with 0 by lra. rewrite mul_signbit_zero.
  split; intro H.
  - rewrite Rneg_false by lra. do 3 f_equal. ring.
  - rewrite Rneg_true by lra. reflexivity.
Qed.





(** ** Monte Carlo simulation (sim3.py) *)

Lemma py_max_ge_r (x y : R) : y <= Sim3.py_max x y.
Proof. unfold Sim3.py_max. destruct (Rlt_dec x y); lra. Qed.

Lemma random_bending_loss_bounds (z : R) :
  0 < Sim3.random_bending_loss z <= 2.0.
Proof.
  unfold Sim3.random_bending_loss, Sim3.base_bending_loss, Sim3.ideal_bend_radius.
  pose proof (py_max_ge_r (normal 5.0 0.5 z) 1.0) as Hr.
  set (r := Sim3.py_max (normal 5.0 0.5 z) 1.0) in *.
  assert (Hinv : 0 < / r <= 1).
  { split; [apply Rinv_0_lt_compat; lra |].
    rewrite <- Rinv_1. apply Rinv_le_contravar; lra. }
  unfold Rdiv. split; nra.
Qed.

Lemma fold_left_plus_ge (l : list R) (acc : R) :
  (forall x, In x l -> 0 <= x) -> acc <= fold_left Rplus l acc.
Proof.
  revert acc. induction l as [| x l IH]; intros acc Hl; cbn; [lra |].
  assert (Hx : 0 <= x) by (apply Hl; left; reflexivity).
  apply Rle_trans with (acc + x); [lra |].
  apply IH. intros w Hw. apply Hl. right. exact Hw.
Qed.

Lemma simulate_ray_loss_ge (draws : nat -> R) :
  Sim3.attenuation_coeff * Sim3.fiber_length +
  Sim3.temp_coefficient * Rabs (Sim3.ambient_temp - Sim3.room_temp) * Sim3.fiber_length
  <= snd (Sim3.simulate_ray draws).
Proof.
  unfold Sim3.simulate_ray. cbn [snd].
  assert (H : 0 <= Sim3.py_sum (map (fun k => Sim3.random_bending_loss (draws k))
                                   (seq 0 Sim3.number_of_bends))).
  { apply fold_left_plus_ge. intros x Hx. apply in_map_iff in Hx.
    destruct Hx as [k [<- _]]. pose proof (random_bending_loss_bounds (draws k)). lra. }
  lra.
Qed.

(** C9: in the Monte Carlo simulation every effective bend radius is
    clamped to at least 1.0 cm, so every per-bend loss lies in
    (0, base_bending_loss * ideal_bend_radius / 1.0] = (0, 2.0] dB, and the
    total loss of every ray is at least the fixed attenuation plus
    temperature term, for every sequence of normal samples. *)
Theorem monte_carlo_bend_loss_bounds :
  (forall z, 1.0 <= Sim3.py_max (normal 5.0 0.5 z) 1.0) /\
  Sim3.base_bending_loss * Sim3.ideal_bend_radius / 1.0 = 2.0 /\
  (forall z, 0 < Sim3.random_bending_loss z <=
             Sim3.base_bending_loss * Sim3.ideal_bend_radius / 1.0) /\
  (forall (n : nat) (draws : nat -> R),
     Forall (fun ray =>
       Sim3.attenuation_coeff * Sim3.fiber_length +
       Sim3.temp_coefficient * Rabs (Sim3.ambient_temp - Sim3.room_temp) * Sim3.fiber_length
       <= snd ray) (Sim3.simulate_rays n draws)).
Proof.
  assert (Hc : Sim3.base_bending_loss * Sim3.ideal_bend_radius / 1.0 = 2.0)
    by (unfold Sim3.base_bending_loss, Sim3.ideal_bend_radius; lra).
  split; [intro z; apply py_max_ge_r |].
  split; [exact Hc |].
  split; [intro z; rewrite Hc; apply random_bending_loss_bounds |].
  intros n draws. unfold Sim3.simulate_rays. apply Forall_forall.
  intros ray Hray. apply in_map_iff in Hray. destruct Hray as [i [<- _]].
  apply simulate_ray_loss_ge.
Qed.

(** * Further properties of the simulation code *)

(** ** Sweep points *)

Lemma map_seq_strictly_increasing (f : nat -> R) (n s : nat) :
  (forall i, (s <= i)%nat -> (S i < s + n)%nat -> f i < f (S i)) ->
  strictly_increasing (map f (seq s n)).
Proof.
  revert s. induction n as [| n IH]; intros s Hf; [exact I |].
  destruct n as [| n]; [exact I |].
  change (strictly_increasing (f s :: map f (seq (S s) (S n)))).
  cbn [seq map strictly_increasing]. split.
  - apply Hf; lia.
  - specialize (IH (S s)). cbn [seq map] in IH. apply IH.
    intros i H1 H2. apply Hf; lia.
Qed.

Lemma linspace_step (start stop : R) (m : nat) :
  start + INR (S m) * ((stop - start) / INR (S m)) = stop.
Proof.
  assert (H : INR (S m) <> 0) by (apply not_0_INR; lia).
  field. exact H.
Qed.

(** [np.linspace] over an increasing range is strictly increasing. *)
Lemma linspace_strictly_increasing (start stop : R) (m : nat) :
  start < stop -> strictly_increasing (Sim8.linspace start stop (S (S m))).
Proof.
  intro Hlt. unfold Sim8.linspace.
  replace (S (S m) - 1)%nat with (S m) by lia.
  assert (Hpos : 0 < INR (S m)) by (apply lt_0_INR; lia).
  assert (Hstep : 0 < (stop - start) / INR (S m))
    by (unfold Rdiv; apply Rmult_lt_0_compat; [lra | apply Rinv_0_lt_compat; exact Hpos]).
  apply map_seq_strictly_increasing. intros i _ Hi.
  destruct (Nat.eqb_spec i (S m)) as [E | E]; [lia |].
  destruct (Nat.eqb_spec (S i) (S m)) as [E' | E'].
  - pose proof (linspace_step start stop m) as Hs.
    assert (Hi' : INR i < INR (S m)) by (apply lt_INR; lia).
    nra.
  - apply Rplus_lt_compat_l. apply Rmult_lt_compat_r; [exact Hstep |].
    apply lt_INR. lia.
Qed.

(** Every point of [np.linspace(start, stop, num)] lies between the ends. *)
Lemma linspace_between (start stop : R) (m : nat) (x : R) :
  start <= stop -> In x (Sim8.linspace start stop (S (S m))) -> start <= x <= stop.
Proof.
  intros Hle Hx. unfold Sim8.linspace in Hx.
  replace (S (S m) - 1)%nat with (S m) in Hx by lia.
  apply in_map_iff in Hx. destruct Hx as [i [<- Hi]]. apply in_seq in Hi.
  destruct (Nat.eqb_spec i (S m)) as [_ | E]; [lra |].
  assert (Hpos : 0 < INR (S m)) by (apply lt_0_INR; lia).
  assert (Hstep : 0 <= (stop - start) / INR (S m))
    by (unfold Rdiv; apply Rmult_le_pos; [lra | apply Rlt_le, Rinv_0_lt_compat; exact Hpos]).
  assert (Hi0 : 0 <= INR i) by apply pos_INR.
  assert (HiS : INR i <= INR (S m)) by (apply le_INR; lia).
  pose proof (linspace_step start stop m) as Hs.
  split; nra.
Qed.

Lemma strictly_increasing_map (P : R -> Prop) (g : R -> R) (l : list R) :
  strictly_increasing l -> (forall x, In x l -> P x) ->
  (forall x y, P x -> P y -> x < y -> g x < g y) ->
  strictly_increasing (map g l).
Proof.
  intros Hl HP Hg. induction l as [| x l IH]; [exact I |].
  destruct l as [| y l]; [exact I |].
  destruct Hl as [Hxy Hl]. split.
  - apply Hg; [apply HP; left; reflexivity | apply HP; right; left; reflexivity | exact Hxy].
  - apply IH; [exact Hl |]. intros w Hw. apply HP. right. exact Hw.
Qed.

Lemma strictly_decreasing_map (P : R -> Prop) (g : R -> R) (l : list R) :
  strictly_increasing l -> (forall x, In x l -> P x) ->
  (forall x y, P x -> P y -> x < y -> g y < g x) ->
  strictly_decreasing (map g l).
Proof.
  intros Hl HP Hg. induction l as [| x l IH]; [exact I |].
  destruct l as [| y l]; [exact I |].
  destruct Hl as [Hxy Hl]. split.
  - apply Hg; [apply HP; left; reflexivity | apply HP; right; left; reflexivity | exact Hxy].
  - apply IH; [exact Hl |]. intros w Hw. apply HP. right. exact Hw.
Qed.

(** ** Catalog and sweeps of sim8.py *)

(** Every fibre of the sim8.py catalog has a positive attenuation
    coefficient, base bending loss and ideal bend radius. *)
Theorem sim8_catalog_positive (name : string) (p : Sim8.fiber_type) :
  Sim8.lookup name Sim8.fiber_types = Some p ->
  0 < Sim8.attenuation_coeff p /\ 0 < Sim8.base_bending_loss p /\
  0 < Sim8.ideal_bend_radius p.
Proof.
  intro H. unfold Sim8.fiber_types in H.
  repeat (cbn [Sim8.lookup] in H;
          destruct (String.eqb _ name); [injection H as <-; cbn; lra |]).
  discriminate H.
Qed.

(** Witness: the G.652D entry. *)
Lemma sim8_catalog_positive_witness :
  0 < 0.20 /\ 0 < 0.10 /\ 0 < 5.0.
Proof.
  exact (sim8_catalog_positive "G.652D" {| Sim8.attenuation_coeff := 0.20;
     Sim8.base_bending_loss := 0.10; Sim8.ideal_bend_radius := 5.0;
     Sim8.description := "Standard Single Mode Fiber (ITU-T G.652D) with typical attenuation 0.20 dB/km at 1550 nm." |}
     eq_refl).
Defined.


Lemma catalog_attenuation_pos (name : string) (p : Sim8.fiber_type) :
  Sim8.lookup name Sim8.fiber_types = Some p -> 0 < Sim8.attenuation_coeff p.
Proof.
  intro H. unfold Sim8.fiber_types in H.
  repeat (cbn [Sim8.lookup] in H;
          destruct (String.eqb _ name); [injection H as <-; cbn; lra |]).
  discriminate H.
Qed.

(** The length sweep of sim8.py over an increasing range with a nonzero
    bend radius returns strictly increasing lengths and total losses that
    are finite floats, strictly increasing, for every catalog fibre,
    temperature and noise. *)
Theorem sim8_length_sweep_increasing (fiber : string) (p : Sim8.fiber_type)
    (ls le t r : R) (draws : nat -> R) :
  Sim8.lookup fiber Sim8.fiber_types = Some p -> ls < le -> r <> 0 ->
  match Sim8.run_length_simulation fiber (Some ls) (Some le) (Some t) (Some r) draws with
  | Done (lengths, _, losses) =>
    strictly_increasing lengths /\ exists l, losses = map Fin l /\ strictly_increasing l
  | _ => False
  end.
Proof.
  intros Hlook Hlt Hr. pose proof (catalog_attenuation_pos _ _ Hlook) as Ha.
  rewrite (sim8_length_sweep_form fiber p ls le t r draws Hlook Hr). cbv zeta.
  pose proof (linspace_strictly_increasing ls le 98 Hlt) as Hinc.
  set (T := fun L => Sim8.attenuation_coeff p * L + Sim8.default_turns *
            (Sim8.base_bending_loss p * (Sim8.ideal_bend_radius p / r) * (Sim8.bend_angle / 90.0))
            + Sim8.temp_coefficient * Rabs (t - Sim8.room_temperature) * L).
  split; [exact Hinc |].
  exists (map T (Sim8.linspace ls le 100)). split.
  - rewrite (map_mapi _ snd (fun L => Fin (T L))) by (intros; reflexivity).
    rewrite map_map. reflexivity.
  - apply (strictly_increasing_map (fun _ => True)); [exact Hinc | intros; exact I |].
    intros x y _ _ Hxy. unfold T, Sim8.temp_coefficient.
    pose proof (Rabs_pos (t - Sim8.room_temperature)). nra.
Qed.

(** Witness: G.652D from 1 km to 10 km at 5 cm. *)
Lemma sim8_length_sweep_increasing_witness :
  match Sim8.run_length_simulation "G.652D" (Some 1) (Some 10) (Some 30) (Some 5.0)
          (fun _ => 0) with
  | Done (lengths, _, losses) =>
    strictly_increasing lengths /\ exists l, losses = map Fin l /\ strictly_increasing l
  | _ => False
  end.
Proof.
  apply (sim8_length_sweep_increasing "G.652D" {| Sim8.attenuation_coeff := 0.20;
     Sim8.base_bending_loss := 0.10; Sim8.ideal_bend_radius := 5.0;
     Sim8.description := "Standard Single Mode Fiber (ITU-T G.652D) with typical attenuation 0.20 dB/km at 1550 nm." |}).
  - reflexivity.
  - lra.
  - lra.
Defined.

(** The bend-radius sweep of sim8.py over [0 < start < end] returns
    strictly increasing radii and total losses that are finite floats,
    strictly decreasing, for every catalog fibre, fixed length, temperature
    and noise. *)
Theorem sim8_bending_sweep_decreasing (fiber : string) (p : Sim8.fiber_type)
    (L rf rt t : R) (draws : nat -> R) :
  Sim8.lookup fiber Sim8.fiber_types = Some p -> 0 < rf -> rf < rt ->
  match Sim8.run_bending_simulation fiber (Some L) (Some rf) (Some rt) (Some t) draws with
  | Done (radii, _, losses) =>
    strictly_increasing radii /\ exists l, losses = map Fin l /\ strictly_decreasing l
  | _ => False
  end.
Proof.
  intros Hlook H0 Hlt. destruct (catalog_positive _ _ Hlook) as [Hb Hi].
  unfold Sim8.run_bending_simulation. rewrite Hlook. cbv zeta.
  pose proof (linspace_strictly_increasing rf rt 98 Hlt) as Hinc.
  set (T := fun r => Sim8.attenuation_coeff p * L + Sim8.default_turns *
            (Sim8.base_bending_loss p * (Sim8.ideal_bend_radius p / r) * (Sim8.bend_angle / 90.0))
            + Sim8.temp_coefficient * Rabs (t - Sim8.room_temperature) * L).
  rewrite collect_mapi_done with (g := fun i r =>
    (Fin (Sim8.I_in * db_to_ratio (T r) +
          (0 + Sim8.noise_std * (Sim8.I_in * db_to_ratio (T r)) * draws i)),
     Fin (T r))).
  2: { intros i x Hx. pose proof (linspace_between rf rt 98 x ltac:(lra) Hx).
       unfold T. apply sim8_output_fin. lra. }
  cbn [bind]. split; [exact Hinc |].
  exists (map T (Sim8.linspace rf rt 100)). split.
  - rewrite (map_mapi _ snd (fun r => Fin (T r))) by (intros; reflexivity).
    rewrite map_map. reflexivity.
  - apply (strictly_decreasing_map (fun x => rf <= x)); [exact Hinc | |].
    + intros x Hx. apply (linspace_between rf rt 98 x); [lra | exact Hx].
    + intros x y Hx Hy Hxy. unfold T, Sim8.default_turns, Sim8.bend_angle.
      assert (Hd : Sim8.base_bending_loss p * (Sim8.ideal_bend_radius p / y) <
                   Sim8.base_bending_loss p * (Sim8.ideal_bend_radius p / x)).
      { apply Rmult_lt_compat_l; [exact Hb |].
        apply Rmult_lt_compat_l; [exact Hi |]. apply Rinv_lt_contravar; nra. }
      lra.
Qed.

(** Witness: G.652D from 2 cm to 10 cm. *)
Lemma sim8_bending_sweep_decreasing_witness :
  match Sim8.run_bending_simulation "G.652D" (Some 10) (Some 2) (Some 10) (Some 25)
          (fun _ => 0) with
  | Done (radii, _, losses) =>
    strictly_increasing radii /\ exists l, losses = map Fin l /\ strictly_decreasing l
  | _ => False
  end.
Proof.
  apply (sim8_bending_sweep_decreasing "G.652D" {| Sim8.attenuation_coeff := 0.20;
     Sim8.base_bending_loss := 0.10; Sim8.ideal_bend_radius := 5.0;
     Sim8.description := "Standard Single Mode Fiber (ITU-T G.652D) with typical attenuation 0.20 dB/km at 1550 nm." |}).
  - reflexivity.
  - lra.
  - lra.
Defined.

(** The noise draw of sim8.py never raises: the current it scales is never
    negative. *)
Lemma sim8_noise_signbit (v : f64) :
  fmul_signbit Sim8.noise_std (fmul (Fin Sim8.I_in) (db_to_ratio_f v)) = false.
Proof.
  assert (Hn : 0 <= Sim8.noise_std) by (unfold Sim8.noise_std; lra).
  assert (Hi : 0 < Sim8.I_in) by (unfold Sim8.I_in; lra).
  destruct v as [x | [|] |]; cbn [db_to_ratio_f fmul fmul_signbit].
  - apply mul_signbit_nonneg; [exact Hn |].
    pose proof (db_to_ratio_pos x). nra.
  - rewrite (Rneg_false Sim8.I_in) by lra.
    destruct (Req_EM_T Sim8.I_in 0) as [E | _]; [lra |]. cbn [fmul_signbit].
    destruct (Req_EM_T Sim8.noise_std 0); [reflexivity |].
    rewrite Rneg_false by exact Hn. reflexivity.
  - apply mul_signbit_nonneg; [exact Hn | nra].
  - reflexivity.
Qed.

(** The total loss of [simulate_output_current] is its bending loss
    combined with the attenuation and temperature terms, in float64. *)
Lemma sim8_output_snd (k : ftype) (L r t a b i n z : R) :
  omap snd (Sim8.simulate_output_current k L r t a b i n z) =
  omap (fun lpb => fadd (fadd (Fin (a * L)) (fmul (Fin n) lpb))
                        (Fin (Sim8.temp_coefficient * Rabs (t - Sim8.room_temperature) * L)))
       (Sim8.bending_loss k b i r Sim8.bend_angle).
Proof.
  unfold Sim8.simulate_output_current.
  destruct (Sim8.bending_loss k b i r Sim8.bend_angle) as [lpb | s | e]; cbn [bind omap];
    [| reflexivity | reflexivity].
  unfold np_normal. rewrite sim8_noise_signbit. reflexivity.
Qed.

(** The temperature term of [simulate_output_current] depends only on the
    distance of the ambient temperature from 25 degrees: at 25 the total loss
    is attenuation plus bending term, it is the same at [25 + d] and
    [25 - d], and for a non-negative length a temperature farther from 25
    never gives a smaller finite total loss (both temperatures give the same
    non-finite loss or the same exception otherwise). *)
Theorem sim8_temperature_term (k : ftype) (L r a b i n z : R) :
  omap snd (Sim8.simulate_output_current k L r 25 a b i n z) =
    omap (fun lpb => fadd (Fin (a * L)) (fmul (Fin n) lpb))
         (Sim8.bending_loss k b i r Sim8.bend_angle) /\
  (forall d, omap snd (Sim8.simulate_output_current k L r (25 + d) a b i n z) =
             omap snd (Sim8.simulate_output_current k L r (25 - d) a b i n z)) /\
  (forall t1 t2, 0 <= L -> Rabs (t1 - 25) <= Rabs (t2 - 25) ->
     match omap snd (Sim8.simulate_output_current k L r t1 a b i n z),
           omap snd (Sim8.simulate_output_current k L r t2 a b i n z) with
     | Done (Fin x), Done (Fin y) => x <= y
     | Done v1, Done v2 => v1 = v2
     | Raises e1, Raises e2 => e1 = e2
     | _, _ => False
     end).
Proof.
  rewrite !sim8_output_snd. unfold Sim8.room_temperature, Sim8.temp_coefficient.
  split; [| split].
  - destruct (Sim8.bending_loss k b i r Sim8.bend_angle) as [lpb | s | e]; cbn [omap bind];
      [| reflexivity | reflexivity].
    replace (25 - 25.0) with 0 by lra. rewrite Rabs_R0.
    destruct (fmul (Fin n) lpb) as [y | s |]; cbn [fadd]; [| reflexivity | reflexivity].
    f_equal. f_equal. ring.
  - intro d. rewrite !sim8_output_snd. unfold Sim8.room_temperature, Sim8.temp_coefficient.
    assert (E : Rabs (25 + d - 25.0) = Rabs (25 - d - 25.0)).
    { replace (25 + d - 25.0) with d by lra.
      replace (25 - d - 25.0) with (- d) by lra. rewrite Rabs_Ropp. reflexivity. }
    rewrite E. reflexivity.
  - intros t1 t2 HL Ht. rewrite !sim8_output_snd.
    unfold Sim8.room_temperature, Sim8.temp_coefficient.
    replace (t1 - 25.0) with (t1 - 25) by lra. replace (t2 - 25.0) with (t2 - 25) by lra.
    destruct (Sim8.bending_loss k b i r Sim8.bend_angle) as [lpb | s | e] eqn:Eb;
      cbn [omap bind]; [| | reflexivity].
    2: { exfalso. unfold Sim8.bending_loss in Eb. destruct k; cbn [div] in Eb;
         [unfold py_div in Eb; destruct (Req_EM_T r 0) |]; discriminate Eb. }
    destruct (fmul (Fin n) lpb) as [y | [|] |]; cbn [fadd]; [nra | reflexivity ..].
Qed.

(** ** Bending-loss models of sim12.py *)

Lemma div_nonneg (x y : R) : 0 <= x -> 0 < y -> 0 <= x / y.
Proof.
  intros Hx Hy. unfold Rdiv. apply Rmult_le_pos; [exact Hx |].
  apply Rlt_le, Rinv_0_lt_compat. exact Hy.
Qed.

Lemma sim12_catalog_positive (name : string) (p : Sim12.fiber_type) :
  Sim12.lookup name Sim12.fiber_types = Some p ->
  0 < Sim12.base_bending_loss p /\ 0 < Sim12.ideal_bend_radius p /\
  0 < Sim12.A p /\ 0 < Sim12.B p /\ 0 < Sim12.MFD p.
Proof.
  intro H. unfold Sim12.fiber_types in H.
  repeat (cbn [Sim12.lookup] in H;
          destruct (String.eqb _ name); [injection H as <-; cbn; lra |]).
  discriminate H.
Qed.

(** The Marcuse loss at a radius [Rb >= 0] with a positive mode-field
    diameter: [A * exp(-B Rb / MFD)], or [A * 0.0] once [np.exp] underflows. *)
Lemma marcuse_nonneg_radius (A B Rb MFD : R) :
  0 < B -> 0 < MFD -> 0 <= Rb ->
  Sim12.marcuse_bending_loss A B Rb MFD =
  Fin (A * (if Rle_dec (exp (- B * (Rb / MFD))) exp_tiny then 0 else exp (- B * (Rb / MFD)))).
Proof.
  intros HB HM HR. unfold Sim12.marcuse_bending_loss.
  rewrite np_div_nonzero by lra. cbn [fmul np_exp_f].
  rewrite np_exp_nonpos.
  - reflexivity.
  - assert (0 <= Rb / MFD) by (apply div_nonneg; lra). nra.
Qed.

(** Model selection in sim12.py: the name "Marcuse" selects
    [A * exp(-B R / MFD)], any other name the empirical formula at 90
    degrees ([bend_angle]).  For a catalog fibre the Marcuse loss is a
    finite float in [0, A] for every radius [R >= 0], positive while
    [np.exp] does not underflow, and equal to [A] at [R = 0]; the empirical
    loss at the fibre's ideal radius is its base bending loss. *)
Theorem sim12_model_selection (name : string) (p : Sim12.fiber_type) :
  Sim12.lookup name Sim12.fiber_types = Some p ->
  (forall model Rb, model <> "Marcuse"%string ->
     Sim12.model_loss model p Rb =
     Sim12.empirical_bending_loss (Sim12.base_bending_loss p) (Sim12.ideal_bend_radius p) Rb
       Sim12.bend_angle) /\
  (forall Rb, 0 <= Rb ->
     exists l, Sim12.model_loss "Marcuse" p Rb = Fin l /\ 0 <= l <= Sim12.A p /\
       (exp_tiny < exp (- Sim12.B p * (Rb / Sim12.MFD p)) -> 0 < l)) /\
  Sim12.model_loss "Marcuse" p 0 = Fin (Sim12.A p) /\
  Sim12.model_loss "Empirical" p (Sim12.ideal_bend_radius p) = Fin (Sim12.base_bending_loss p).
Proof.
  intro Hlook. destruct (sim12_catalog_positive _ _ Hlook) as [Hb [Hi [HA [HB HM]]]].
  split; [| split; [| split]].
  - intros model Rb Hm. unfold Sim12.model_loss.
    destruct (String.eqb_spec model "Marcuse") as [E | _]; [contradiction | reflexivity].
  - intros Rb HR. unfold Sim12.model_loss. cbn [String.eqb Ascii.eqb Bool.eqb].
    rewrite marcuse_nonneg_radius by assumption.
    eexists. split; [reflexivity |].
    assert (Hq : 0 <= Rb / Sim12.MFD p) by (apply div_nonneg; lra).
    assert (He : exp (- Sim12.B p * (Rb / Sim12.MFD p)) <= 1)
      by (rewrite <- exp_0; apply exp_le_mono; nra).
    pose proof (exp_pos (- Sim12.B p * (Rb / Sim12.MFD p))).
    destruct (Rle_dec _ exp_tiny) as [Hu | Hu].
    + split; [lra | intro; lra].
    + split; [split; nra | intro; nra].
  - unfold Sim12.model_loss. cbn [String.eqb Ascii.eqb Bool.eqb].
    rewrite marcuse_nonneg_radius by lra.
    replace (- Sim12.B p * (0 / Sim12.MFD p)) with 0 by (field; lra). rewrite exp_0.
    pose proof exp_tiny_pos. destruct (Rle_dec 1 exp_tiny) as [H1 | _].
    + exfalso. unfold exp_tiny in *. assert (/ IZR (2 ^ 1075) < 1).
      { apply (Rmult_lt_reg_l (IZR (2 ^ 1075))); [apply IZR_lt; reflexivity |].
        rewrite Rinv_r by (apply not_0_IZR; discriminate).
        rewrite Rmult_1_r. apply IZR_lt. reflexivity. }
      lra.
    + f_equal. ring.
  - unfold Sim12.model_loss. cbn [String.eqb Ascii.eqb Bool.eqb].
    unfold Sim12.empirical_bending_loss. rewrite np_div_nonzero by lra.
    cbn [fmul]. f_equal. unfold Sim12.bend_angle. field. lra.
Qed.

(** Witness: the G.657A entry of sim12.py. *)
Lemma sim12_model_selection_witness :
  Sim12.model_loss "Marcuse" (Sim12.Build_fiber_type 0.18 0.05 3.0 8.8 0.1 1.8
     "Bend Insensitive Fiber (ITU-T G.657A) with lower bending loss.") 0 = Fin 0.1.
Proof.
  apply (sim12_model_selection "G.657A" _ eq_refl).
Defined.

(** The bend-radius sweep of sim12.py over [0 < start < end], for a catalog
    fibre and either model, returns 100 strictly increasing radii and 100
    finite, strictly decreasing losses, the Marcuse model provided [np.exp]
    does not underflow at the largest radius. *)
Theorem sim12_bending_sweep_decreasing (fiber model : string) (p : Sim12.fiber_type)
    (rf rt : R) :
  Sim12.lookup fiber Sim12.fiber_types = Some p -> 0 < rf -> rf < rt ->
  (model = "Marcuse"%string -> exp_tiny < exp (- Sim12.B p * (rt / Sim12.MFD p))) ->
  match Sim12.run_bending_simulation fiber model (Some rf) (Some rt) with
  | Done (radii, losses) =>
    List.length losses = 100%nat /\ strictly_increasing radii /\
    exists l, losses = map Fin l /\ strictly_decreasing l
  | _ => False
  end.
Proof.
  intros Hlook H0 Hlt Hnu. destruct (sim12_catalog_positive _ _ Hlook) as [Hb [Hi [HA [HB HM]]]].
  unfold Sim12.run_bending_simulation, Sim12.simulate_bending_loss. rewrite Hlook.
  cbn [bind].
  pose proof (linspace_strictly_increasing rf rt 98 Hlt) as Hinc.
  set (g := fun x => if String.eqb model "Marcuse"
                     then Sim12.A p * exp (- Sim12.B p * (x / Sim12.MFD p))
                     else Sim12.base_bending_loss p * (Sim12.ideal_bend_radius p / x) *
                          (Sim12.bend_angle / 90.0)).
  assert (Hin : forall x, In x (Sim8.linspace rf rt 100) -> rf <= x <= rt)
    by (intros x Hx; apply (linspace_between rf rt 98 x); [lra | exact Hx]).
  assert (Hmap : map (Sim12.model_loss model p) (Sim8.linspace rf rt 100) =
                 map Fin (map g (Sim8.linspace rf rt 100))).
  { rewrite map_map. apply map_ext_in. intros x Hx. specialize (Hin x Hx).
    unfold Sim12.model_loss, g.
    destruct (String.eqb_spec model "Marcuse") as [Em | _].
    - rewrite marcuse_nonneg_radius by lra.
      destruct (Rle_dec _ exp_tiny) as [Hu | _]; [| reflexivity].
      exfalso. specialize (Hnu Em).
      assert (exp (- Sim12.B p * (rt / Sim12.MFD p)) <= exp (- Sim12.B p * (x / Sim12.MFD p))).
      { apply exp_le_mono. assert (x / Sim12.MFD p <= rt / Sim12.MFD p).
        { unfold Rdiv. apply Rmult_le_compat_r; [apply Rlt_le, Rinv_0_lt_compat |]; lra. }
        nra. }
      lra.
    - unfold Sim12.empirical_bending_loss. rewrite np_div_nonzero by lra. reflexivity. }
  rewrite Hmap. split; [rewrite !length_map; apply linspace_length |]. split; [exact Hinc |].
  eexists. split; [reflexivity |].
  apply (strictly_decreasing_map (fun x => rf <= x)); [exact Hinc | |].
  - intros x Hx. apply Hin. exact Hx.
  - intros x y Hx Hy Hxy. unfold g.
    destruct (String.eqb model "Marcuse").
    + apply Rmult_lt_compat_l; [exact HA |].
      apply exp_increasing.
      assert (x / Sim12.MFD p < y / Sim12.MFD p).
      { unfold Rdiv. apply Rmult_lt_compat_r; [apply Rinv_0_lt_compat |]; assumption. }
      nra.
    + unfold Sim12.bend_angle. apply inverse_radius_decreasing; lra.
Qed.

(** Witness: G.652D with the Marcuse model from 2 cm to 10 cm. *)
Lemma sim12_bending_sweep_decreasing_witness :
  match Sim12.run_bending_simulation "G.652D" "Marcuse" (Some 2) (Some 10) with
  | Done (radii, losses) =>
    List.length losses = 100%nat /\ strictly_increasing radii /\
    exists l, losses = map Fin l /\ strictly_decreasing l
  | _ => False
  end.
Proof.
  apply (sim12_bending_sweep_decreasing "G.652D" "Marcuse"
     (Sim12.Build_fiber_type 0.20 0.10 5.0 9.2 0.2 1.5
       "Standard Single Mode Fiber (ITU-T G.652D) with attenuation 0.20 dB/km at 1550 nm.")).
  - reflexivity.
  - lra.
  - lra.
  - intros _. apply exp_no_underflow. cbn [Sim12.B Sim12.MFD].
    assert (0 <= 10 / 9.2) by (apply div_nonneg; lra).
    assert (10 / 9.2 <= 10) by (apply (Rmult_le_reg_r 9.2); [lra |]; unfold Rdiv;
      rewrite Rmult_assoc, Rinv_l by lra; lra).
    lra.
Defined.

(** ** Physical model and sweeps of sim13.py *)

Lemma sim13_catalog_guided (name : string) (p : Sim13.fiber_type) :
  Sim13.lookup name Sim13.fiber_types = Some p ->
  0 < Sim13.attenuation_coeff p /\ 0 < Sim13.core_radius p /\ 0 < Sim13.wavelength p /\
  0 < Sim13.n2 p /\ Sim13.n2 p < Sim13.n1 p.
Proof.
  intro H. unfold Sim13.fiber_types in H.
  repeat (cbn [Sim13.lookup] in H;
          destruct (String.eqb _ name); [injection H as <-; cbn; lra |]).
  discriminate H.
Qed.

Section PhysicalLoss.

(** A guided fibre: positive core radius, index and wavelength, and
    [n1^2 > n2^2]. *)
Variables (a n1 n2 lam : R).
Hypotheses (Ha : 0 < a) (Hn1 : 0 < n1) (Hlam : 0 < lam) (Hc : 0 < n1 ^ 2 - n2 ^ 2).

Local Abbreviation expo Rcm := (- (4/3) * (Rcm * 0.01 / a) * Rpower (n1 ^ 2 - n2 ^ 2) (3/2)).
Local Abbreviation factor := (0.5 * (PI * a * n1 / lam) ^ 2).
Local Abbreviation ploss Rcm :=
  (factor * (if Rle_dec (exp (expo Rcm)) exp_tiny then 0 else exp (expo Rcm))).

Lemma expo_antitone (R1 R2 : R) : R1 <= R2 -> expo R2 <= expo R1.
Proof using Ha Hn1 Hlam Hc.
  intro H12. destruct (pow_3_2_pos _ Hc) as [_ Hp].
  assert (R1 * 0.01 / a <= R2 * 0.01 / a).
  { unfold Rdiv. apply Rmult_le_compat_r; [apply Rlt_le, Rinv_0_lt_compat; exact Ha | lra]. }
  nra.
Qed.

Lemma expo_nonpos (Rcm : R) : 0 <= Rcm -> expo Rcm <= 0.
Proof using Ha Hn1 Hlam Hc.
  intro HR. pose proof (expo_antitone 0 Rcm HR) as H.
  replace (- (4/3) * (0 * 0.01 / a) * Rpower (n1 ^ 2 - n2 ^ 2) (3/2)) with 0 in H
    by (field; lra).
  exact H.
Qed.

(** At a bend radius [Rcm >= 0] the loss is [factor * exp(exponent)], or
    [factor * 0.0] once [np.exp] underflows. *)
Lemma physical_loss_form (Rcm : R) :
  0 <= Rcm -> Sim13.bending_loss a n1 n2 lam Rcm = Done (Sim13.PyReal (Fin (ploss Rcm))).
Proof using Ha Hn1 Hlam Hc.
  intro HR. rewrite physical_bending_loss_real by lra.
  rewrite np_exp_nonpos by (apply expo_nonpos; exact HR). reflexivity.
Qed.

Lemma physical_loss_range (Rcm : R) : 0 <= Rcm -> 0 <= ploss Rcm <= factor.
Proof using Ha Hn1 Hlam Hc.
  intro HR. pose proof (factor_pos a n1 lam Ha Hn1 Hlam).
  assert (He : exp (expo Rcm) <= 1) by (rewrite <- exp_0; apply exp_le_mono, expo_nonpos, HR).
  destruct (Rle_dec _ exp_tiny); [split; lra |].
  pose proof (exp_pos (expo Rcm)). split; nra.
Qed.

Lemma physical_loss_pos (Rcm : R) : exp_tiny < exp (expo Rcm) -> 0 < ploss Rcm.
Proof using Ha Hn1 Hlam Hc.
  intro Ht. pose proof (factor_pos a n1 lam Ha Hn1 Hlam).
  destruct (Rle_dec _ exp_tiny); [lra |].
  apply Rmult_lt_0_compat; [lra | apply exp_pos].
Qed.

Lemma physical_loss_0 : ploss 0 = factor.
Proof using Ha Hn1 Hlam Hc.
  replace (- (4/3) * (0 * 0.01 / a) * Rpower (n1 ^ 2 - n2 ^ 2) (3/2)) with 0 by (field; lra).
  rewrite exp_0. pose proof exp_tiny_pos.
  destruct (Rle_dec 1 exp_tiny) as [H1 | _]; [| ring].
  exfalso. unfold exp_tiny in *. assert (/ IZR (2 ^ 1075) < 1).
  { apply (Rmult_lt_reg_l (IZR (2 ^ 1075))); [apply IZR_lt; reflexivity |].
    rewrite Rinv_r by (apply not_0_IZR; discriminate).
    rewrite Rmult_1_r. apply IZR_lt. reflexivity. }
  lra.
Qed.

Lemma physical_loss_antitone (R1 R2 : R) : 0 <= R1 -> R1 <= R2 -> ploss R2 <= ploss R1.
Proof using Ha Hn1 Hlam Hc.
  intros H1 H12. pose proof (factor_pos a n1 lam Ha Hn1 Hlam).
  pose proof (expo_antitone R1 R2 H12). pose proof (expo_nonpos R1 H1).
  pose proof (exp_le_mono _ _ H0). pose proof (exp_pos (expo R1)). pose proof (exp_pos (expo R2)).
  apply Rmult_le_compat_l; [lra |].
  destruct (Rle_dec (exp (expo R2)) exp_tiny); destruct (Rle_dec (exp (expo R1)) exp_tiny); lra.
Qed.

End PhysicalLoss.

(** [simulate_total_loss] for a catalog fibre of sim13.py at a bend radius
    [Rcm >= 0] whose total [att * L + n * loss] is not negative: the zero
    noise and temperature terms leave the total unchanged. *)
Lemma sim13_catalog_total (name : string) (p : Sim13.fiber_type) (L Rcm t n z l : R) :
  Sim13.lookup name Sim13.fiber_types = Some p ->
  Sim13.bending_loss (Sim13.core_radius p) (Sim13.n1 p) (Sim13.n2 p) (Sim13.wavelength p) Rcm
    = Done (Sim13.PyReal (Fin l)) ->
  (0 <= Sim13.attenuation_coeff p * L + n * l ->
   Sim13.simulate_total_loss L Rcm t (Sim13.attenuation_coeff p) (Sim13.core_radius p)
     (Sim13.n1 p) (Sim13.n2 p) (Sim13.wavelength p) n z =
   Done (Sim13.PyReal (Fin (Sim13.attenuation_coeff p * L + n * l)))) /\
  (Sim13.attenuation_coeff p * L + n * l < 0 ->
   Sim13.simulate_total_loss L Rcm t (Sim13.attenuation_coeff p) (Sim13.core_radius p)
     (Sim13.n1 p) (Sim13.n2 p) (Sim13.wavelength p) n z = Raises "ValueError").
Proof.
  intros _ Hl. destruct (sim13_zero_noise L Rcm t (Sim13.attenuation_coeff p) _ _ _ _ n z l Hl)
    as [Hp Hn].
  unfold Sim13.temp_coefficient in Hp, Hn. replace 0.0000 with 0 in Hp, Hn by lra.
  rewrite !Rmult_0_l, !Rplus_0_r in Hp, Hn. split; assumption.
Qed.

Lemma catalog_guided_index (name : string) (p : Sim13.fiber_type) :
  Sim13.lookup name Sim13.fiber_types = Some p ->
  0 < Sim13.n1 p /\ 0 < Sim13.n1 p ^ 2 - Sim13.n2 p ^ 2.
Proof.
  intro Hlook. destruct (sim13_catalog_guided _ _ Hlook) as [_ [_ [_ [H2 H21]]]].
  split; nra.
Qed.

(** For every fibre of the sim13.py catalog (all have n1 > n2 > 0 and a
    positive core radius and wavelength) and every bend radius [Rcm >= 0],
    [bending_loss] is a float between 0 and [0.5 * factor] ([factor] =
    [(pi a n1 / lambda)^2]), equal to the bound at [Rcm = 0] and positive
    while [np.exp] does not underflow.  [simulate_total_loss] then returns
    [attenuation * length + turns * loss] whenever that total is not
    negative, whatever the ambient temperature (the temperature coefficient
    is 0) and the noise sample, and raises [ValueError] when it is negative
    (numpy refuses the scale [0.0 * total = -0.0]). *)
Theorem sim13_catalog_losses_real (name : string) (p : Sim13.fiber_type) :
  Sim13.lookup name Sim13.fiber_types = Some p ->
  forall Rcm, 0 <= Rcm -> exists l,
    Sim13.bending_loss (Sim13.core_radius p) (Sim13.n1 p) (Sim13.n2 p) (Sim13.wavelength p) Rcm
      = Done (Sim13.PyReal (Fin l)) /\
    0 <= l <= 0.5 * (PI * Sim13.core_radius p * Sim13.n1 p / Sim13.wavelength p) ^ 2 /\
    (Rcm = 0 -> l = 0.5 * (PI * Sim13.core_radius p * Sim13.n1 p / Sim13.wavelength p) ^ 2) /\
    (exp_tiny < exp (- (4/3) * (Rcm * 0.01 / Sim13.core_radius p) *
                     Rpower (Sim13.n1 p ^ 2 - Sim13.n2 p ^ 2) (3/2)) -> 0 < l) /\
    forall L t n z,
      (0 <= Sim13.attenuation_coeff p * L + n * l ->
       Sim13.simulate_total_loss L Rcm t (Sim13.attenuation_coeff p) (Sim13.core_radius p)
         (Sim13.n1 p) (Sim13.n2 p) (Sim13.wavelength p) n z =
       Done (Sim13.PyReal (Fin (Sim13.attenuation_coeff p * L + n * l)))) /\
      (Sim13.attenuation_coeff p * L + n * l < 0 ->
       Sim13.simulate_total_loss L Rcm t (Sim13.attenuation_coeff p) (Sim13.core_radius p)
         (Sim13.n1 p) (Sim13.n2 p) (Sim13.wavelength p) n z = Raises "ValueError").
Proof.
  intros Hlook Rcm HR.
  destruct (sim13_catalog_guided _ _ Hlook) as [Hatt [Ha [Hl [H2 H21]]]].
  destruct (catalog_guided_index _ _ Hlook) as [Hn1 Hc].
  pose proof (physical_loss_form _ _ _ _ Ha Hn1 Hl Hc Rcm HR) as Hf.
  eexists. split; [exact Hf |].
  split; [apply physical_loss_range; assumption |].
  split; [intros ->; apply physical_loss_0; assumption |].
  split; [apply physical_loss_pos; assumption |].
  intros L t n z. apply (sim13_catalog_total name p L Rcm t n z _ Hlook Hf).
Qed.

(** Witness: the OM1 entry at a 5 cm bend. *)
Lemma sim13_catalog_losses_real_witness :
  exists l,
    Sim13.bending_loss 31.25e-6 1.50 1.46 850e-9 5 = Done (Sim13.PyReal (Fin l)) /\
    0 <= l <= 0.5 * (PI * 31.25e-6 * 1.50 / 850e-9) ^ 2 /\
    (5 = 0 -> l = 0.5 * (PI * 31.25e-6 * 1.50 / 850e-9) ^ 2) /\
    (exp_tiny < exp (- (4/3) * (5 * 0.01 / 31.25e-6) * Rpower (1.50 ^ 2 - 1.46 ^ 2) (3/2)) ->
     0 < l) /\
    forall L t n z,
      (0 <= 3.0 * L + n * l ->
       Sim13.simulate_total_loss L 5 t 3.0 31.25e-6 1.50 1.46 850e-9 n z =
       Done (Sim13.PyReal (Fin (3.0 * L + n * l)))) /\
      (3.0 * L + n * l < 0 ->
       Sim13.simulate_total_loss L 5 t 3.0 31.25e-6 1.50 1.46 850e-9 n z = Raises "ValueError").
Proof.
  apply (sim13_catalog_losses_real "OM1" (Sim13.Build_fiber_type 3.0
     "Multimode Fiber OM1 (62.5/125 µm) optimized for 850 nm operation."
     31.25e-6 1.50 1.46 850e-9) eq_refl 5).
  lra.
Defined.

Lemma arange_nonempty (a b : Z) :
  (a <= b)%Z ->
  Sim8.arange a (b + 1)%Z = map (fun k => (a + Z.of_nat k)%Z) (seq 0 (Z.to_nat (b - a + 1))).
Proof.
  intro Hab. unfold Sim8.arange. replace (b + 1 - a)%Z with (b - a + 1)%Z by lia. reflexivity.
Qed.

Lemma consecutive_non_decreasing (h : Z -> R) (a : Z) :
  (forall n, h n <= h (n + 1)%Z) ->
  forall n s, non_decreasing (map (fun k => h (a + Z.of_nat k)%Z) (seq s n)).
Proof.
  intros Hh n. induction n as [| n IH]; intro s; [exact I |].
  destruct n as [| n]; [exact I |].
  specialize (IH (S s)).
  change (seq s (S (S n))) with (s :: seq (S s) (S n)).
  cbn [map]. change (non_decreasing (h (a + Z.of_nat s)%Z ::
    map (fun k => h (a + Z.of_nat k)%Z) (seq (S s) (S n)))).
  cbn [seq map non_decreasing] in IH |- *. split; [| exact IH].
  replace (a + Z.of_nat (S s))%Z with (a + Z.of_nat s + 1)%Z by lia.
  apply Hh.
Qed.

Lemma non_increasing_map (P : R -> Prop) (g : R -> R) (l : list R) :
  strictly_increasing l -> (forall x, In x l -> P x) ->
  (forall x y, P x -> P y -> x < y -> g y <= g x) ->
  non_increasing (map g l).
Proof.
  intros Hl HP Hg. induction l as [| x l IH]; [exact I |].
  destruct l as [| y l]; [exact I |].
  destruct Hl as [Hxy Hl]. split.
  - apply Hg; [apply HP; left; reflexivity | apply HP; right; left; reflexivity | exact Hxy].
  - apply IH; [exact Hl |]. intros w Hw. apply HP. right. exact Hw.
Qed.

Lemma mapi_const {A B : Type} (h : A -> B) (l : list A) :
  Sim8.mapi (fun _ x => h x) l = map h l.
Proof.
  rewrite <- (map_id (Sim8.mapi _ l)).
  apply (map_mapi (fun _ x => h x) (fun o => o) h). reflexivity.
Qed.

(** The sim13.py turns sweep over a catalog fibre, a non-negative length,
    a non-empty range [0 <= a <= b] and a bend radius [r >= 0] returns the
    turn counts [a..b] and, for each, the float attenuation * length +
    turns * (bending loss per turn), with a per-turn loss [l >= 0] (positive
    while [np.exp] does not underflow); the losses never decrease with the
    turn count. *)
Theorem sim13_turns_sweep (fiber : string) (p : Sim13.fiber_type) (L r t : R)
    (a b : Z) (draws : nat -> R) :
  Sim13.lookup fiber Sim13.fiber_types = Some p -> 0 <= L -> (0 <= a <= b)%Z -> 0 <= r ->
  exists l, 0 <= l /\
    (exp_tiny < exp (- (4/3) * (r * 0.01 / Sim13.core_radius p) *
                     Rpower (Sim13.n1 p ^ 2 - Sim13.n2 p ^ 2) (3/2)) -> 0 < l) /\
    Sim13.run_turns_simulation fiber (Some L) (Some a) (Some b) (Some r) (Some t) draws =
      Done (Sim8.arange a (b + 1)%Z,
            map (fun n => Sim13.PyReal (Fin (Sim13.attenuation_coeff p * L + IZR n * l)))
              (Sim8.arange a (b + 1)%Z)) /\
    non_decreasing
      (map (fun n => Sim13.attenuation_coeff p * L + IZR n * l) (Sim8.arange a (b + 1)%Z)).
Proof.
  intros Hlook HL Hab Hr.
  destruct (sim13_catalog_guided _ _ Hlook) as [Hatt [Ha [Hl [H2 H21]]]].
  destruct (catalog_guided_index _ _ Hlook) as [Hn1 Hc].
  pose proof (physical_loss_form _ _ _ _ Ha Hn1 Hl Hc r Hr) as Hf.
  pose proof (physical_loss_range _ _ _ _ Ha Hn1 Hl Hc r Hr) as Hrange.
  pose proof (physical_loss_pos _ _ _ _ Ha Hn1 Hl Hc r) as Hpos.
  set (lp := 0.5 * (PI * Sim13.core_radius p * Sim13.n1 p / Sim13.wavelength p) ^ 2 * _)
    in Hf, Hrange, Hpos.
  exists lp. split; [apply Hrange |]. split; [exact Hpos |].
  rewrite (arange_nonempty a b) by lia.
  assert (Hnn : forall n, In n (map (fun k => (a + Z.of_nat k)%Z) (seq 0 (Z.to_nat (b - a + 1))))
                          -> (0 <= n)%Z).
  { intros n Hn. apply in_map_iff in Hn. destruct Hn as [k [<- _]]. lia. }
  split.
  - unfold Sim13.run_turns_simulation. rewrite Hlook. rewrite (arange_nonempty a b) by lia.
    unfold Sim13.sweep_losses.
    rewrite collect_mapi_done with (g := fun _ x => Sim13.PyReal (Fin
      (Sim13.attenuation_coeff p * L + x * lp))).
    + cbn [bind]. rewrite mapi_const, map_map.
      destruct (Z.to_nat (b - a + 1)) eqn:E; [lia | reflexivity].
    + intros i x Hx. apply in_map_iff in Hx. destruct Hx as [n [<- Hn]].
      apply (sim13_catalog_total fiber p L r t (IZR n) (draws i) lp Hlook Hf).
      apply Hnn, IZR_le in Hn.
      apply Rplus_le_le_0_compat; apply Rmult_le_pos; lra.
  - rewrite map_map.
    apply (consecutive_non_decreasing (fun n => Sim13.attenuation_coeff p * L + IZR n * lp) a).
    intro n. rewrite plus_IZR. lra.
Qed.

(** Witness: G.652D, 10 km, 1 to 20 turns at a 5 cm bend. *)
Lemma sim13_turns_sweep_witness :
  exists l, 0 <= l /\
    (exp_tiny < exp (- (4/3) * (5 * 0.01 / 4.1e-6) * Rpower (1.4682 ^ 2 - 1.462 ^ 2) (3/2)) ->
     0 < l) /\
    Sim13.run_turns_simulation "G.652D" (Some 10) (Some 1%Z) (Some 20%Z) (Some 5) (Some 25)
      (fun _ => 0) =
      Done (Sim8.arange 1 21, map (fun n => Sim13.PyReal (Fin (0.20 * 10 + IZR n * l)))
                                (Sim8.arange 1 21)) /\
    non_decreasing (map (fun n => 0.20 * 10 + IZR n * l) (Sim8.arange 1 21)).
Proof.
  apply (sim13_turns_sweep "G.652D" _ 10 5 25 1 20 (fun _ => 0) eq_refl); [lra | lia | lra].
Defined.

(** With a reversed turn range [b < a] the sim13.py turns sweep over a
    catalog fibre computes no point and then fails reading the last turn
    count: it raises [IndexError] instead of reporting the input. *)
Theorem sim13_turns_empty_range (fiber : string) (p : Sim13.fiber_type) (L r t : R)
    (a b : Z) (draws : nat -> R) :
  Sim13.lookup fiber Sim13.fiber_types = Some p -> (b < a)%Z ->
  Sim13.run_turns_simulation fiber (Some L) (Some a) (Some b) (Some r) (Some t) draws =
    Raises "IndexError".
Proof.
  intros Hlook Hba. unfold Sim13.run_turns_simulation. rewrite Hlook.
  unfold Sim8.arange. replace (Z.to_nat (b + 1 - a)) with 0%nat by lia.
  reflexivity.
Qed.

(** Witness: OM3 with turns from 10 down to 1. *)
Lemma sim13_turns_empty_range_witness :
  Sim13.run_turns_simulation "OM3" (Some 1) (Some 10%Z) (Some 1%Z) (Some 2) (Some 25)
    (fun _ => 0) = Raises "IndexError".
Proof.
  exact (sim13_turns_empty_range "OM3" _ 1 2 25 10 1 (fun _ => 0) eq_refl ltac:(lia)).
Defined.

(** The sim13.py length sweep over a catalog fibre, [0 <= ls < le] and a
    bend radius [r >= 0] returns the 100 lengths of
    [np.linspace(ls, le, 100)] and 100 float losses, strictly increasing;
    the losses depend neither on the ambient temperature nor on the noise
    samples. *)
Theorem sim13_length_sweep (fiber : string) (p : Sim13.fiber_type) (ls le t1 t2 r : R)
    (draws1 draws2 : nat -> R) :
  Sim13.lookup fiber Sim13.fiber_types = Some p -> 0 <= ls -> ls < le -> 0 <= r ->
  exists losses,
    Sim13.run_length_simulation fiber (Some ls) (Some le) (Some t1) (Some r) draws1 =
      Done (Sim8.linspace ls le 100, losses) /\
    Sim13.run_length_simulation fiber (Some ls) (Some le) (Some t2) (Some r) draws2 =
      Done (Sim8.linspace ls le 100, losses) /\
    List.length losses = 100%nat /\
    exists l, losses = map (fun x => Sim13.PyReal (Fin x)) l /\ strictly_increasing l.
Proof.
  intros Hlook H0 Hlt Hr.
  destruct (sim13_catalog_guided _ _ Hlook) as [Hatt [Ha [Hl [H2 H21]]]].
  destruct (catalog_guided_index _ _ Hlook) as [Hn1 Hc].
  pose proof (physical_loss_form _ _ _ _ Ha Hn1 Hl Hc r Hr) as Hf.
  pose proof (physical_loss_range _ _ _ _ Ha Hn1 Hl Hc r Hr) as Hrange.
  set (lp := 0.5 * (PI * Sim13.core_radius p * Sim13.n1 p / Sim13.wavelength p) ^ 2 * _) in Hf.
  assert (Hlp : 0 <= lp) by apply Hrange.
  set (g := fun L => Sim13.attenuation_coeff p * L + Sim13.default_turns * lp).
  assert (Hpt : forall t (draws : nat -> R),
    Sim13.sweep_losses (fun L z => Sim13.simulate_total_loss L r t (Sim13.attenuation_coeff p)
        (Sim13.core_radius p) (Sim13.n1 p) (Sim13.n2 p) (Sim13.wavelength p)
        Sim13.default_turns z) (Sim8.linspace ls le 100) draws =
    Done (map (fun L => Sim13.PyReal (Fin (g L))) (Sim8.linspace ls le 100))).
  { intros t draws. unfold Sim13.sweep_losses.
    rewrite collect_mapi_done with (g := fun _ L => Sim13.PyReal (Fin (g L))).
    - rewrite mapi_const. reflexivity.
    - intros i x Hx. pose proof (linspace_between ls le 98 x ltac:(lra) Hx).
      apply (sim13_catalog_total fiber p x r t _ (draws i) lp Hlook Hf).
      unfold Sim13.default_turns. apply Rplus_le_le_0_compat; apply Rmult_le_pos; lra. }
  exists (map (fun L => Sim13.PyReal (Fin (g L))) (Sim8.linspace ls le 100)).
  unfold Sim13.run_length_simulation. rewrite Hlook, !Hpt. cbn [bind].
  split; [reflexivity |]. split; [reflexivity |].
  split; [rewrite length_map; apply linspace_length |].
  exists (map g (Sim8.linspace ls le 100)). split; [rewrite map_map; reflexivity |].
  apply (strictly_increasing_map (fun _ => True));
    [apply linspace_strictly_increasing; exact Hlt | intros; exact I |].
  intros x y _ _ Hxy. unfold g. nra.
Qed.

(** Witness: G.657A from 1 to 25 km at 25 and at 60 degrees. *)
Lemma sim13_length_sweep_witness :
  exists losses,
    Sim13.run_length_simulation "G.657A" (Some 1) (Some 25) (Some 25) (Some 2) (fun _ => 0) =
      Done (Sim8.linspace 1 25 100, losses) /\
    Sim13.run_length_simulation "G.657A" (Some 1) (Some 25) (Some 60) (Some 2) (fun _ => 1) =
      Done (Sim8.linspace 1 25 100, losses) /\
    List.length losses = 100%nat /\
    exists l, losses = map (fun x => Sim13.PyReal (Fin x)) l /\ strictly_increasing l.
Proof.
  apply (sim13_length_sweep "G.657A" _ 1 25 25 60 2 (fun _ => 0) (fun _ => 1) eq_refl);
    lra.
Defined.

(** The sim13.py bending sweep over a catalog fibre, a non-negative length
    and [0 <= rf < rt] returns the strictly increasing radii of
    [np.linspace(rf, rt, 100)] and float losses that never increase with the
    radius, each at least the attenuation part [attenuation * length]. *)
Theorem sim13_bending_sweep (fiber : string) (p : Sim13.fiber_type) (L rf rt t : R)
    (draws : nat -> R) :
  Sim13.lookup fiber Sim13.fiber_types = Some p -> 0 <= L -> 0 <= rf -> rf < rt ->
  match Sim13.run_bending_simulation fiber (Some L) (Some rf) (Some rt) (Some t) draws with
  | Done (radii, losses) =>
    radii = Sim8.linspace rf rt 100 /\ strictly_increasing radii /\
    exists l, losses = map (fun x => Sim13.PyReal (Fin x)) l /\ non_increasing l /\
      (forall x, In x l -> Sim13.attenuation_coeff p * L <= x)
  | _ => False
  end.
Proof.
  intros Hlook HL H0 Hlt.
  destruct (sim13_catalog_guided _ _ Hlook) as [Hatt [Ha [Hl [H2 H21]]]].
  destruct (catalog_guided_index _ _ Hlook) as [Hn1 Hc].
  pose proof (linspace_strictly_increasing rf rt 98 Hlt) as Hinc.
  assert (Hin : forall x, In x (Sim8.linspace rf rt 100) -> rf <= x <= rt)
    by (intros x Hx; apply (linspace_between rf rt 98 x); [lra | exact Hx]).
  set (lp := fun R => 0.5 * (PI * Sim13.core_radius p * Sim13.n1 p / Sim13.wavelength p) ^ 2 *
    (if Rle_dec (exp (- (4/3) * (R * 0.01 / Sim13.core_radius p) *
                        Rpower (Sim13.n1 p ^ 2 - Sim13.n2 p ^ 2) (3/2))) exp_tiny then 0
     else exp (- (4/3) * (R * 0.01 / Sim13.core_radius p) *
               Rpower (Sim13.n1 p ^ 2 - Sim13.n2 p ^ 2) (3/2)))).
  set (g := fun R => Sim13.attenuation_coeff p * L + Sim13.default_turns * lp R).
  unfold Sim13.run_bending_simulation. rewrite Hlook. unfold Sim13.sweep_losses.
  rewrite collect_mapi_done with (g := fun _ R => Sim13.PyReal (Fin (g R))).
  2: { intros i x Hx. specialize (Hin x Hx).
       pose proof (physical_loss_form _ _ _ _ Ha Hn1 Hl Hc x ltac:(lra)) as Hf.
       pose proof (physical_loss_range _ _ _ _ Ha Hn1 Hl Hc x ltac:(lra)).
       apply (sim13_catalog_total fiber p L x t _ (draws i) _ Hlook Hf).
       unfold Sim13.default_turns. apply Rplus_le_le_0_compat; apply Rmult_le_pos; lra. }
  cbn [bind]. rewrite mapi_const.
  split; [reflexivity |]. split; [exact Hinc |].
  exists (map g (Sim8.linspace rf rt 100)). split; [rewrite map_map; reflexivity |]. split.
  - apply (non_increasing_map (fun x => 0 <= x)); [exact Hinc | |].
    + intros x Hx. specialize (Hin x Hx). lra.
    + intros x y Hx Hy Hxy. unfold g, Sim13.default_turns.
      pose proof (physical_loss_antitone _ _ _ _ Ha Hn1 Hl Hc x y Hx ltac:(lra)). unfold lp. lra.
  - intros x Hx. apply in_map_iff in Hx. destruct Hx as [R [<- HR]]. specialize (Hin R HR).
    pose proof (physical_loss_range _ _ _ _ Ha Hn1 Hl Hc R ltac:(lra)).
    unfold g, lp, Sim13.default_turns. lra.
Qed.

(** Witness: G.655 over bend radii from 1 to 5 cm. *)
Lemma sim13_bending_sweep_witness :
  match Sim13.run_bending_simulation "G.655" (Some 10) (Some 1) (Some 5) (Some 25) (fun _ => 0) with
  | Done (radii, losses) =>
    radii = Sim8.linspace 1 5 100 /\ strictly_increasing radii /\
    exists l, losses = map (fun x => Sim13.PyReal (Fin x)) l /\ non_increasing l /\
      (forall x, In x l -> 0.22 * 10 <= x)
  | _ => False
  end.
Proof.
  apply (sim13_bending_sweep "G.655" _ 10 1 5 25 (fun _ => 0) eq_refl); lra.
Defined.

(** ** Rays of the Monte Carlo simulation (sim3.py) *)

Lemma fold_left_plus_bounds (l : list R) (lo hi acc : R) :
  (forall x, In x l -> lo <= x <= hi) ->
  acc + lo * INR (List.length l) <= fold_left Rplus l acc <= acc + hi * INR (List.length l).
Proof.
  revert acc. induction l as [| x l IH]; intros acc Hl; cbn [fold_left List.length].
  - cbn [INR]. lra.
  - assert (Hx : lo <= x <= hi) by (apply Hl; left; reflexivity).
    destruct (IH (acc + x)) as [H1 H2]; [intros w Hw; apply Hl; right; exact Hw |].
    rewrite S_INR. lra.
Qed.

Lemma simulate_ray_loss_bounds (draws : nat -> R) :
  Sim3.attenuation_coeff * Sim3.fiber_length +
  Sim3.temp_coefficient * Rabs (Sim3.ambient_temp - Sim3.room_temp) * Sim3.fiber_length
  <= snd (Sim3.simulate_ray draws) <=
  Sim3.attenuation_coeff * Sim3.fiber_length +
  Sim3.temp_coefficient * Rabs (Sim3.ambient_temp - Sim3.room_temp) * Sim3.fiber_length + 10.
Proof.
  unfold Sim3.simulate_ray, Sim3.py_sum. cbn [snd].
  destruct (fold_left_plus_bounds
              (map (fun k => Sim3.random_bending_loss (draws k)) (seq 0 Sim3.number_of_bends))
              0 2.0 0) as [H1 H2].
  { intros x Hx. apply in_map_iff in Hx. destruct Hx as [k [<- _]].
    pose proof (random_bending_loss_bounds (draws k)). lra. }
  rewrite length_map, length_seq in H1, H2. unfold Sim3.number_of_bends in H1, H2 |- *.
  cbn [INR] in H1, H2. lra.
Qed.

Lemma simulate_ray_current_bounds (draws : nat -> R) :
  Sim3.I_in * db_to_ratio (Sim3.attenuation_coeff * Sim3.fiber_length +
    Sim3.temp_coefficient * Rabs (Sim3.ambient_temp - Sim3.room_temp) * Sim3.fiber_length + 10)
  <= fst (Sim3.simulate_ray draws) <=
  Sim3.I_in * db_to_ratio (Sim3.attenuation_coeff * Sim3.fiber_length +
    Sim3.temp_coefficient * Rabs (Sim3.ambient_temp - Sim3.room_temp) * Sim3.fiber_length).
Proof.
  destruct (simulate_ray_loss_bounds draws) as [H1 H2].
  assert (Hf : fst (Sim3.simulate_ray draws) =
               Sim3.I_in * db_to_ratio (snd (Sim3.simulate_ray draws))) by reflexivity.
  rewrite Hf. unfold Sim3.I_in.
  pose proof (db_to_ratio_antitone _ _ H1). pose proof (db_to_ratio_antitone _ _ H2).
  lra.
Qed.

(** Every ray of sim3.py loses between the fixed attenuation and
    temperature loss and that loss plus 10 dB (five bends of at most 2 dB
    each); its output current is [I_in * 10 ** (-loss / 10)], lies between
    the currents of these two bounding losses, and is strictly below the
    input current, for every sequence of normal samples. *)
Theorem sim3_ray_bounds (draws : nat -> R) :
  Sim3.attenuation_coeff * Sim3.fiber_length +
  Sim3.temp_coefficient * Rabs (Sim3.ambient_temp - Sim3.room_temp) * Sim3.fiber_length
  <= snd (Sim3.simulate_ray draws) <=
  Sim3.attenuation_coeff * Sim3.fiber_length +
  Sim3.temp_coefficient * Rabs (Sim3.ambient_temp - Sim3.room_temp) * Sim3.fiber_length + 10 /\
  fst (Sim3.simulate_ray draws) = Sim3.I_in * db_to_ratio (snd (Sim3.simulate_ray draws)) /\
  Sim3.I_in * db_to_ratio (Sim3.attenuation_coeff * Sim3.fiber_length +
    Sim3.temp_coefficient * Rabs (Sim3.ambient_temp - Sim3.room_temp) * Sim3.fiber_length + 10)
  <= fst (Sim3.simulate_ray draws) <=
  Sim3.I_in * db_to_ratio (Sim3.attenuation_coeff * Sim3.fiber_length +
    Sim3.temp_coefficient * Rabs (Sim3.ambient_temp - Sim3.room_temp) * Sim3.fiber_length) /\
  0 < fst (Sim3.simulate_ray draws) < Sim3.I_in.
Proof.
  destruct (simulate_ray_loss_bounds draws) as [H1 H2].
  split; [split; assumption |]. split; [reflexivity |].
  split; [apply simulate_ray_current_bounds |].
  change (fst (Sim3.simulate_ray draws)) with
    (Sim3.I_in * db_to_ratio (snd (Sim3.simulate_ray draws))).
  assert (Hp : 0 < snd (Sim3.simulate_ray draws)).
  { eapply Rlt_le_trans; [| exact H1].
    unfold Sim3.attenuation_coeff, Sim3.fiber_length, Sim3.temp_coefficient,
      Sim3.ambient_temp, Sim3.room_temp.
    pose proof (Rabs_pos (30.0 - 25.0)). nra. }
  pose proof (db_to_ratio_decreasing _ _ Hp). rewrite db_to_ratio_0 in H.
  pose proof (db_to_ratio_pos (snd (Sim3.simulate_ray draws))).
  unfold Sim3.I_in. split; nra.
Qed.

(** The main loop of sim3.py over [n >= 1] rays records [n] currents and
    [n] losses; their mean ([np.mean]) lies between the currents of the
    smallest and largest possible loss, and their [np.std] is not negative. *)
Theorem sim3_monte_carlo_stats (n : nat) (draws : nat -> R) :
  (1 <= n)%nat ->
  let '(outputs, losses, avg, sd) := Sim3.monte_carlo n draws in
  List.length outputs = n /\ List.length losses = n /\
  Sim3.I_in * db_to_ratio (Sim3.attenuation_coeff * Sim3.fiber_length +
    Sim3.temp_coefficient * Rabs (Sim3.ambient_temp - Sim3.room_temp) * Sim3.fiber_length + 10)
  <= avg <=
  Sim3.I_in * db_to_ratio (Sim3.attenuation_coeff * Sim3.fiber_length +
    Sim3.temp_coefficient * Rabs (Sim3.ambient_temp - Sim3.room_temp) * Sim3.fiber_length) /\
  0 <= sd.
Proof.
  intro Hn. unfold Sim3.monte_carlo.
  assert (Hlen : List.length (Sim3.simulate_rays n draws) = n)
    by (unfold Sim3.simulate_rays; rewrite length_map, length_seq; reflexivity).
  split; [rewrite length_map; exact Hlen |].
  split; [rewrite length_map; exact Hlen |].
  split; [| apply sqrt_pos].
  unfold Sim3.mean. rewrite length_map, Hlen.
  set (lo := Sim3.I_in * db_to_ratio (Sim3.attenuation_coeff * Sim3.fiber_length +
    Sim3.temp_coefficient * Rabs (Sim3.ambient_temp - Sim3.room_temp) * Sim3.fiber_length + 10)).
  set (hi := Sim3.I_in * db_to_ratio (Sim3.attenuation_coeff * Sim3.fiber_length +
    Sim3.temp_coefficient * Rabs (Sim3.ambient_temp - Sim3.room_temp) * Sim3.fiber_length)).
  destruct (fold_left_plus_bounds (map fst (Sim3.simulate_rays n draws)) lo hi 0) as [H1 H2].
  { intros x Hx. apply in_map_iff in Hx. destruct Hx as [ray [<- Hray]].
    unfold Sim3.simulate_rays in Hray. apply in_map_iff in Hray.
    destruct Hray as [i [<- _]]. apply simulate_ray_current_bounds. }
  rewrite length_map, Hlen in H1, H2.
  assert (HN : 0 < INR n) by (apply lt_0_INR; lia).
  set (S := fold_left Rplus (map fst (Sim3.simulate_rays n draws)) 0) in *.
  assert (HS : S / INR n * INR n = S) by (field; lra).
  split; nra.
Qed.

(** Witness: one ray with every radius sample at the mean. *)
Lemma sim3_monte_carlo_stats_witness :
  let '(outputs, losses, avg, sd) := Sim3.monte_carlo 1 (fun _ => 0) in
  List.length outputs = 1%nat /\ List.length losses = 1%nat /\
  Sim3.I_in * db_to_ratio (Sim3.attenuation_coeff * Sim3.fiber_length +
    Sim3.temp_coefficient * Rabs (Sim3.ambient_temp - Sim3.room_temp) * Sim3.fiber_length + 10)
  <= avg <=
  Sim3.I_in * db_to_ratio (Sim3.attenuation_coeff * Sim3.fiber_length +
    Sim3.temp_coefficient * Rabs (Sim3.ambient_temp - Sim3.room_temp) * Sim3.fiber_length) /\
  0 <= sd.
Proof. exact (sim3_monte_carlo_stats 1 (fun _ => 0) ltac:(lia)). Defined.

(** ** Loss accounting of the hybrid simulation (sim4.py) *)

Lemma step_body_accounting dz amb room att tc idx draws (st : Sim4.state) (s : nat) :
  let st' := Sim4.step_body dz amb room att tc idx draws st s in
  Sim4.total_loss_dB st' = Sim4.total_loss_dB st + (att * dz + tc * Rabs (amb - room) * dz) +
    (if existsb (Nat.eqb s) idx then normal 0.2 0.05 (draws (Sim4.events_seen st)) else 0) /\
  Sim4.events_seen st' =
    (Sim4.events_seen st + (if existsb (Nat.eqb s) idx then 1 else 0))%nat /\
  Sim4.loss_profile st' = Sim4.loss_profile st ++ [Sim4.total_loss_dB st'].
Proof.
  cbn zeta. unfold Sim4.step_body.
  destruct (existsb (Nat.eqb s) idx); cbn [Sim4.total_loss_dB Sim4.events_seen Sim4.loss_profile].
  - split; [lra | split; [lia | reflexivity]].
  - split; [lra | split; [lia | reflexivity]].
Qed.

Lemma fold_step_body_accounting dz amb room att tc idx draws (steps : list nat) (st : Sim4.state) :
  let st' := fold_left (Sim4.step_body dz amb room att tc idx draws) steps st in
  let m := List.length (filter (fun s => existsb (Nat.eqb s) idx) steps) in
  Sim4.total_loss_dB st' =
    Sim4.total_loss_dB st + INR (List.length steps) * (att * dz + tc * Rabs (amb - room) * dz) +
    fold_right Rplus 0 (map (fun k => normal 0.2 0.05 (draws k))
                            (seq (Sim4.events_seen st) m)) /\
  Sim4.events_seen st' = (Sim4.events_seen st + m)%nat /\
  List.length (Sim4.loss_profile st') =
    (List.length (Sim4.loss_profile st) + List.length steps)%nat /\
  (steps <> [] -> last (Sim4.loss_profile st') 0 = Sim4.total_loss_dB st').
Proof.
  revert st. induction steps as [| s steps IH]; intro st.
  - cbn. rewrite Nat.add_0_r. split; [lra |]. split; [reflexivity |].
    split; [lia | intro H; contradiction H; reflexivity].
  - cbn zeta. cbn [fold_left filter List.length].
    destruct (step_body_accounting dz amb room att tc idx draws st s) as [E1 [E2 E3]].
    set (st1 := Sim4.step_body dz amb room att tc idx draws st s) in *.
    destruct (IH st1) as [H1 [H2 [H3 H4]]].
    split; [| split; [| split]].
    + rewrite H1, E2, E1, S_INR.
      destruct (existsb (Nat.eqb s) idx); cbn [List.length].
      * rewrite Nat.add_1_r. cbn [seq map fold_right]. lra.
      * rewrite Nat.add_0_r. lra.
    + rewrite H2, E2. destruct (existsb (Nat.eqb s) idx); cbn [List.length]; lia.
    + rewrite H3, E3, length_app. cbn [List.length]. lia.
    + intros _. destruct steps as [| s' steps'].
      * cbn [fold_left]. rewrite E3. apply last_last.
      * apply H4. discriminate.
Qed.

Lemma existsb_eqb_In (x : nat) (l : list nat) : existsb (Nat.eqb x) l = true <-> In x l.
Proof.
  rewrite existsb_exists. split.
  - intros [y [Hy Heq]]. apply Nat.eqb_eq in Heq. subst y. exact Hy.
  - intro H. exists x. split; [exact H | apply Nat.eqb_refl].
Qed.

Lemma event_steps_count (n : nat) (idx : list nat) :
  NoDup idx -> (forall i, In i idx -> (i < n)%nat) ->
  List.length (filter (fun s => existsb (Nat.eqb s) idx) (seq 0 n)) = List.length idx.
Proof.
  intros Hnd Hlt.
  assert (Hin : forall x, In x (filter (fun s => existsb (Nat.eqb s) idx) (seq 0 n)) <-> In x idx).
  { intro x. rewrite filter_In, existsb_eqb_In, in_seq. split; [intros [_ H]; exact H |].
    intro H. split; [| exact H]. specialize (Hlt x H). lia. }
  apply Nat.le_antisymm; apply NoDup_incl_length.
  - apply NoDup_filter, seq_NoDup.
  - intros x Hx. apply Hin. exact Hx.
  - exact Hnd.
  - intros x Hx. apply Hin. exact Hx.
Qed.

(** [hybrid_simulation] refuses bad step counts before any step: zero steps
    raise [ZeroDivisionError] (the step length [fiber_length_km / num_steps]),
    and more bend events than steps raise [ValueError] (the choice of
    distinct event steps). *)
Theorem sim4_invalid_step_counts (I_in L : R) (num_steps num_events : nat)
    (amb room att tc nstd : R) (idx : list nat) (draws : nat -> R) (noise_z : R) :
  (num_steps = 0%nat ->
   Sim4.hybrid_simulation I_in L num_steps num_events amb room att tc nstd idx draws noise_z
     = Raises "ZeroDivisionError") /\
  ((0 < num_steps < num_events)%nat ->
   Sim4.hybrid_simulation I_in L num_steps num_events amb room att tc nstd idx draws noise_z
     = Raises "ValueError").
Proof.
  split; intro H; unfold Sim4.hybrid_simulation.
  - subst num_steps. reflexivity.
  - destruct (Nat.eqb_spec num_steps 0) as [E | _]; [lia |].
    destruct (Nat.ltb_spec num_steps num_events); [reflexivity | lia].
Qed.

(** Witness: no steps, and 3 steps for 10 events. *)
Lemma sim4_invalid_step_counts_witness :
  Sim4.hybrid_simulation 1000.0 5.0 0 10 30.0 25.0 0.00385 0.0002 0.02 [] (fun _ => 0) 0
    = Raises "ZeroDivisionError" /\
  Sim4.hybrid_simulation 1000.0 5.0 3 10 30.0 25.0 0.00385 0.0002 0.02 [] (fun _ => 0) 0
    = Raises "ValueError".
Proof.
  split.
  - apply (sim4_invalid_step_counts 1000.0 5.0 0 10 30.0 25.0 0.00385 0.0002 0.02 []
             (fun _ => 0) 0). reflexivity.
  - apply (sim4_invalid_step_counts 1000.0 5.0 3 10 30.0 25.0 0.00385 0.0002 0.02 []
             (fun _ => 0) 0). lia.
Defined.

(** For [num_bend_events <= num_steps], [0 < num_steps], and event steps
    that are [num_bend_events] distinct steps of the fiber (as
    [np.random.choice] without replacement draws them), [hybrid_simulation]
    returns one cumulative loss per
    step; the last one is the deterministic loss
    [fiber_length * (attenuation + temp_coefficient * |ambient - room|)]
    plus the [num_bend_events] event losses, and the output current is
    [I_in * 10 ** (-last / 10)] scaled by the noise factor; with a
    non-negative input current and [noise_std] the scale of
    [np.random.normal] is never negative, so nothing is raised. *)
Theorem sim4_final_loss (I_in L : R) (num_steps num_events : nat)
    (amb room att tc nstd : R) (idx : list nat) (draws : nat -> R) (noise_z : R) :
  (0 < num_steps)%nat -> (num_events <= num_steps)%nat ->
  NoDup idx -> List.length idx = num_events -> (forall i, In i idx -> (i < num_steps)%nat) ->
  0 <= I_in -> 0 <= nstd ->
  match Sim4.hybrid_simulation I_in L num_steps num_events amb room att tc nstd
          idx draws noise_z with
  | Done (I_out, profile, events) =>
    events = idx /\ List.length profile = num_steps /\
    last profile 0 = L * (att + tc * Rabs (amb - room)) +
      fold_right Rplus 0 (map (fun k => normal 0.2 0.05 (draws k)) (seq 0 num_events)) /\
    I_out = (1 + nstd * noise_z) * (I_in * db_to_ratio (last profile 0))
  | _ => False
  end.
Proof.
  intros Hn Hle Hnd Hlen Hlt HI Hs. unfold Sim4.hybrid_simulation.
  destruct (Nat.eqb_spec num_steps 0) as [E | _]; [lia |].
  destruct (Nat.ltb_spec num_steps num_events); [lia |].
  destruct (fold_step_body_accounting (L / INR num_steps) amb room att tc idx draws
              (seq 0 num_steps) {| Sim4.total_loss_dB := 0.0; Sim4.loss_profile := [];
                                   Sim4.events_seen := 0 |}) as [H1 [_ [H3 H4]]].
  cbn [Sim4.total_loss_dB Sim4.loss_profile Sim4.events_seen List.length] in H1, H3.
  rewrite event_steps_count in H1 by assumption. rewrite Hlen, length_seq in H1.
  rewrite length_seq in H3.
  assert (Hne : seq 0 num_steps <> []).
  { destruct num_steps; [lia | discriminate]. }
  specialize (H4 Hne).
  set (st := fold_left _ (seq 0 num_steps) _) in *.
  unfold np_normal_R. rewrite mul_signbit_nonneg.
  2: exact Hs.
  2: { pose proof (db_to_ratio_pos (Sim4.total_loss_dB st)). nra. }
  cbn [bind].
  split; [reflexivity |]. split; [exact H3 |].
  rewrite H4. split.
  - rewrite H1. assert (HN : INR num_steps <> 0) by (apply not_0_INR; lia).
    replace 0.0 with 0 by lra. field. exact HN.
  - unfold normal. ring.
Qed.

(** Witness: the script's parameters on 4 steps with events at steps 0 and 2. *)
Lemma sim4_final_loss_witness :
  match Sim4.hybrid_simulation 1000.0 5.0 4 2 30.0 25.0 0.00385 0.0002 0.02
          [0%nat; 2%nat] (fun _ => 1) 0 with
  | Done (I_out, profile, events) =>
    events = [0%nat; 2%nat] /\ List.length profile = 4%nat /\
    last profile 0 = 5.0 * (0.00385 + 0.0002 * Rabs (30.0 - 25.0)) +
      fold_right Rplus 0 (map (fun k => normal 0.2 0.05 ((fun _ => 1) k)) (seq 0 2)) /\
    I_out = (1 + 0.02 * 0) * (1000.0 * db_to_ratio (last profile 0))
  | _ => False
  end.
Proof.
  apply (sim4_final_loss 1000.0 5.0 4 2 30.0 25.0 0.00385 0.0002 0.02 [0%nat; 2%nat]
           (fun _ => 1) 0).
  - lia.
  - lia.
  - repeat constructor; cbn; intuition discriminate.
  - reflexivity.
  - intros i Hi. cbn in Hi. destruct Hi as [<- | [<- | []]]; lia.
  - lra.
  - lra.
Defined.

(** ** Acceptance angle and numerical aperture (sim1.py) *)

(** For a positive spot diameter [D] and screen distance [b] the calculator
    returns an acceptance angle strictly between 0 and 90 degrees and a
    numerical aperture strictly between 0 and 1, equal to
    [D / sqrt(D^2 + 4 b^2)]. *)
Theorem sim1_numerical_aperture_range (D b : R) :
  0 < D -> 0 < b ->
  match Sim1.calculate_numerical_aperture D b with
  | Done (theta_deg, NA) =>
    0 < theta_deg < 90 /\ 0 < NA < 1 /\ NA = D / sqrt (D ^ 2 + 4 * b ^ 2)
  | _ => False
  end.
Proof.
  intros HD Hb. unfold Sim1.calculate_numerical_aperture, Sim1.degrees.
  destruct (Req_EM_T (2 * b) 0) as [H | _]; [lra |].
  set (x := D / (2 * b)).
  assert (Hx : 0 < x) by (unfold x, Rdiv; apply Rmult_lt_0_compat;
                           [exact HD | apply Rinv_0_lt_compat; lra]).
  pose proof (atan_bound x) as [_ Hhi].
  assert (Hlo : 0 < atan x) by (rewrite <- atan_0; apply atan_increasing; exact Hx).
  pose proof PI_RGT_0 as HPI.
  assert (Hs : 0 < sqrt (1 + x²)) by (apply sqrt_lt_R0; pose proof (Rle_0_sqr x); lra).
  assert (Hxs : x < sqrt (1 + x²)).
  { rewrite <- (sqrt_Rsqr x) at 1 by lra. apply sqrt_lt_1_alt.
    split; [apply Rle_0_sqr | lra]. }
  split; [| split].
  - split.
    + unfold Rdiv. apply Rmult_lt_0_compat; [lra | apply Rinv_0_lt_compat; exact HPI].
    + apply (Rmult_lt_reg_r PI); [exact HPI |].
      unfold Rdiv. rewrite Rmult_assoc, Rinv_l by lra. nra.
  - rewrite sin_atan. split.
    + unfold Rdiv. apply Rmult_lt_0_compat; [exact Hx | apply Rinv_0_lt_compat; exact Hs].
    + apply (Rmult_lt_reg_r (sqrt (1 + x²))); [exact Hs |].
      unfold Rdiv. rewrite Rmult_assoc, Rinv_l by lra. lra.
  - rewrite sin_atan.
    assert (Hsq : sqrt (D ^ 2 + 4 * b ^ 2) = 2 * b * sqrt (1 + x²)).
    { replace (D ^ 2 + 4 * b ^ 2) with ((2 * b) * (2 * b) * (1 + x²))
        by (unfold x, Rsqr; field; lra).
      rewrite sqrt_mult_alt by (apply Rmult_le_pos; lra).
      rewrite sqrt_square by lra. reflexivity. }
    rewrite Hsq. assert (Hsn : sqrt (1 + x²) <> 0) by lra.
    unfold x in *. field. repeat split; lra.
Qed.

(** Witness: the script's values [D = 1.15] mm, [b = 100.0] mm. *)
Lemma sim1_numerical_aperture_range_witness :
  match Sim1.calculate_numerical_aperture 1.15 100.0 with
  | Done (theta_deg, NA) =>
    0 < theta_deg < 90 /\ 0 < NA < 1 /\ NA = 1.15 / sqrt (1.15 ^ 2 + 4 * 100.0 ^ 2)
  | _ => False
  end.
Proof. apply sim1_numerical_aperture_range; lra. Defined.


(** ** Output current of sim2.py *)

(** [simulate_output_current] of sim2.py: [ZeroDivisionError] at a zero
    bend radius, [ValueError] for a negative [noise_std] (the current it
    scales is positive), and otherwise the noisy current and the total
    loss. *)
Lemma sim2_output_form (L r t nstd z : R) :
  Sim2.simulate_output_current L r t nstd z =
  if Req_EM_T r 0 then Raises "ZeroDivisionError"
  else if Rlt_dec nstd 0 then Raises "ValueError"
  else Done (Sim2.I_in * db_to_ratio (Sim2.attenuation_coeff * L +
               Sim2.number_of_bends * (Sim2.base_bending_loss * (Sim2.ideal_bend_radius / r) *
                 (Sim2.bend_angle / 90.0)) +
               Sim2.temp_coefficient * Rabs (t - Sim2.room_temperature) * L) +
             (0 + nstd * (Sim2.I_in * db_to_ratio (Sim2.attenuation_coeff * L +
               Sim2.number_of_bends * (Sim2.base_bending_loss * (Sim2.ideal_bend_radius / r) *
                 (Sim2.bend_angle / 90.0)) +
               Sim2.temp_coefficient * Rabs (t - Sim2.room_temperature) * L)) * z),
             Sim2.attenuation_coeff * L +
               Sim2.number_of_bends * (Sim2.base_bending_loss * (Sim2.ideal_bend_radius / r) *
                 (Sim2.bend_angle / 90.0)) +
               Sim2.temp_coefficient * Rabs (t - Sim2.room_temperature) * L).
Proof.
  unfold Sim2.simulate_output_current, Sim2.bending_loss, py_div.
  destruct (Req_EM_T r 0) as [_ | Hr]; [reflexivity |]. cbn [bind].
  unfold np_normal_R.
  match goal with |- context [mul_signbit nstd ?x] => set (I := x) end.
  assert (HI : 0 < I) by (unfold I, Sim2.I_in; apply Rmult_lt_0_compat; [lra | apply db_to_ratio_pos]).
  destruct (Rlt_dec nstd 0) as [Hn | Hn].
  - rewrite mul_signbit_neg by nra. reflexivity.
  - rewrite mul_signbit_nonneg by lra. reflexivity.
Qed.

(** Without noise, the output current of sim2.py strictly decreases as the
    fiber gets longer and strictly increases with a larger (positive) bend
    radius, at every ambient temperature, for every non-negative
    [noise_std]; a negative [noise_std] raises [ValueError] and a zero bend
    radius [ZeroDivisionError] at both points compared. *)
Theorem sim2_current_monotone (noise_std : R) :
  (forall L1 L2 r t, L1 < L2 ->
     match Sim2.simulate_output_current L2 r t noise_std 0,
           Sim2.simulate_output_current L1 r t noise_std 0 with
     | Done (I2, _), Done (I1, _) => I2 < I1
     | Raises e2, Raises e1 => e2 = e1
     | _, _ => False
     end) /\
  (forall L r1 r2 t, 0 < r1 < r2 ->
     match Sim2.simulate_output_current L r1 t noise_std 0,
           Sim2.simulate_output_current L r2 t noise_std 0 with
     | Done (I1, _), Done (I2, _) => I1 < I2
     | Raises e1, Raises e2 => e1 = e2
     | _, _ => False
     end).
Proof.
  split.
  - intros L1 L2 r t Hlt. rewrite !sim2_output_form.
    destruct (Req_EM_T r 0) as [_ | Hr]; [reflexivity |].
    destruct (Rlt_dec noise_std 0) as [_ | Hn]; [reflexivity |].
    set (lt := Rabs (t - Sim2.room_temperature)).
    set (B := Sim2.number_of_bends * (Sim2.base_bending_loss * (Sim2.ideal_bend_radius / r) *
                 (Sim2.bend_angle / 90.0))).
    assert (Hd : db_to_ratio (Sim2.attenuation_coeff * L2 + B + Sim2.temp_coefficient * lt * L2) <
                 db_to_ratio (Sim2.attenuation_coeff * L1 + B + Sim2.temp_coefficient * lt * L1)).
    { apply db_to_ratio_decreasing. pose proof (Rabs_pos (t - Sim2.room_temperature)).
      fold lt in H. unfold Sim2.attenuation_coeff, Sim2.temp_coefficient. nra. }
    unfold Sim2.I_in. lra.
  - intros L r1 r2 t [H0 Hlt]. rewrite !sim2_output_form.
    destruct (Req_EM_T r1 0) as [E | _]; [lra |].
    destruct (Req_EM_T r2 0) as [E | _]; [lra |].
    destruct (Rlt_dec noise_std 0) as [_ | Hn]; [reflexivity |].
    assert (Hb : Sim2.base_bending_loss * (Sim2.ideal_bend_radius / r2) * (Sim2.bend_angle / 90.0) <
                 Sim2.base_bending_loss * (Sim2.ideal_bend_radius / r1) * (Sim2.bend_angle / 90.0)).
    { unfold Sim2.base_bending_loss, Sim2.ideal_bend_radius, Sim2.bend_angle.
      pose proof (Rinv_lt_contravar r1 r2 ltac:(nra) Hlt). unfold Rdiv. nra. }
    set (T := fun r => Sim2.attenuation_coeff * L +
               Sim2.number_of_bends * (Sim2.base_bending_loss * (Sim2.ideal_bend_radius / r) *
                 (Sim2.bend_angle / 90.0)) +
               Sim2.temp_coefficient * Rabs (t - Sim2.room_temperature) * L).
    assert (Hd : db_to_ratio (T r1) < db_to_ratio (T r2)).
    { apply db_to_ratio_decreasing. unfold T, Sim2.number_of_bends. lra. }
    unfold T in Hd. unfold Sim2.I_in. lra.
Qed.

(** The errors of sim2.py's [simulate_output_current]: a zero bend radius
    raises [ZeroDivisionError]; with a nonzero radius a negative
    [noise_std] raises [ValueError] ([np.random.normal] refuses the negative
    scale [noise_std * I_out]), and a non-negative one returns the current
    [I_in * 10 ** (-total / 10)] scaled by [1 + noise_std * z] with the
    total loss. *)
Theorem sim2_output_errors (L r t nstd z : R) :
  (r = 0 -> Sim2.simulate_output_current L r t nstd z = Raises "ZeroDivisionError") /\
  (r <> 0 -> nstd < 0 -> Sim2.simulate_output_current L r t nstd z = Raises "ValueError") /\
  (r <> 0 -> 0 <= nstd ->
   exists total,
     Sim2.simulate_output_current L r t nstd z =
     Done ((1 + nstd * z) * (Sim2.I_in * db_to_ratio total), total) /\
     total = Sim2.attenuation_coeff * L +
             Sim2.number_of_bends * (Sim2.base_bending_loss * (Sim2.ideal_bend_radius / r)) +
             Sim2.temp_coefficient * Rabs (t - Sim2.room_temperature) * L).
Proof.
  rewrite sim2_output_form. split; [| split].
  - intro Hr. destruct (Req_EM_T r 0); [reflexivity | contradiction].
  - intros Hr Hn. destruct (Req_EM_T r 0); [contradiction |].
    destruct (Rlt_dec nstd 0); [reflexivity | lra].
  - intros Hr Hn. destruct (Req_EM_T r 0); [contradiction |].
    destruct (Rlt_dec nstd 0); [lra |].
    eexists. split; [f_equal; f_equal; ring |].
    unfold Sim2.bend_angle. field. split; [exact Hr | lra].
Qed.

(** Witness: the script's radius 5.0 cm with [noise_std = 0.02], a zero
    radius, and a negative [noise_std]. *)
Lemma sim2_output_errors_witness :
  Sim2.simulate_output_current 10 0 30 0.02 0 = Raises "ZeroDivisionError" /\
  Sim2.simulate_output_current 10 5.0 30 (-0.02) 0 = Raises "ValueError" /\
  exists total,
    Sim2.simulate_output_current 10 5.0 30 0.02 1 =
    Done ((1 + 0.02 * 1) * (Sim2.I_in * db_to_ratio total), total) /\
    total = Sim2.attenuation_coeff * 10 +
            Sim2.number_of_bends * (Sim2.base_bending_loss * (Sim2.ideal_bend_radius / 5.0)) +
            Sim2.temp_coefficient * Rabs (30 - Sim2.room_temperature) * 10.
Proof.
  split; [| split].
  - apply (sim2_output_errors 10 0 30 0.02 0). reflexivity.
  - apply (sim2_output_errors 10 5.0 30 (-0.02) 0); lra.
  - apply (sim2_output_errors 10 5.0 30 0.02 1); lra.
Defined.

(** ** A zero bend radius in sim8.py *)

(** At a zero bend radius [simulate_output_current] of sim8.py depends on
    the type of the radius: a Python float (the length and turns sweeps)
    raises [ZeroDivisionError], while a numpy float64 (the bend-radius
    sweep from 0) gives an infinite loss per bend, so for a catalog-like
    fibre (positive base loss and ideal radius) and a positive number of
    turns the total loss is [inf] and the output current [0.0]. *)
Theorem sim8_zero_radius (L t att base ideal n z : R) :
  0 < base -> 0 < ideal -> 0 < n ->
  Sim8.simulate_output_current Python_float L 0 t att base ideal n z =
    Raises "ZeroDivisionError" /\
  Sim8.simulate_output_current Numpy_float64 L 0 t att base ideal n z =
    Done (Fin 0, Inf false).
Proof.
  intros Hb Hi Hn. split; [apply sim8_output_zero_radius |].
  unfold Sim8.simulate_output_current, Sim8.bending_loss. cbn [div].
  rewrite np_div_zero_pos by exact Hi. cbn [bind].
  assert (Hinf : forall x, 0 < x ->
            fmul (Fin x) (Inf false) = Inf false /\ fmul (Inf false) (Fin x) = Inf false).
  { intros x Hx. cbn [fmul]. destruct (Req_EM_T x 0) as [E | _]; [lra |].
    rewrite (Rneg_false x) by lra. split; reflexivity. }
  assert (Ha : 0 < Sim8.bend_angle / 90.0) by (unfold Sim8.bend_angle; lra).
  rewrite (proj1 (Hinf base Hb)), (proj2 (Hinf _ Ha)).
  rewrite (proj1 (Hinf n Hn)). cbn [fadd db_to_ratio_f fmul].
  unfold np_normal. cbn [fmul_signbit].
  rewrite mul_signbit_nonneg by (unfold Sim8.noise_std, Sim8.I_in; lra).
  cbn [bind fmul fadd]. f_equal. f_equal. f_equal. ring.
Qed.

(** Witness: the G.652D catalog values with 5 turns. *)
Lemma sim8_zero_radius_witness :
  Sim8.simulate_output_current Python_float 10 0 25 0.20 0.10 5.0 5 0 =
    Raises "ZeroDivisionError" /\
  Sim8.simulate_output_current Numpy_float64 10 0 25 0.20 0.10 5.0 5 0 =
    Done (Fin 0, Inf false).
Proof. apply sim8_zero_radius; lra. Defined.
